(** * Voice assistant: conversation store, voice engine and interaction controller

    A shallow embedding of [ai_assistant.py], [voice_engine.py], [config.py]
    and the event handlers of [main_window.py], with the properties of the
    conversation history, of the voice-mode selector, of the alien text
    transform and of the click / callback state machine. *)

From Stdlib Require Import String Ascii QArith.
From stdpp Require Import base option list gmap.

Local Open Scope N_scope.
Local Open Scope nat_scope.

(** ** Python text

    A Python [str] is a sequence of Unicode code points; [len], slices,
    [split], [strip] and [join] count and cut code points. *)

Abbreviation pystr := (list N) (only parsing).

(** A literal of the source, as code points (the literals of these files are
    ASCII). *)
Definition py (s : string) : pystr :=
  (fun a => N_of_ascii a) <$> list_ascii_of_string s.
Arguments py : simpl never.

(** Truth value of a [str]: the empty string is false. *)
Definition truthy (s : pystr) : bool :=
  match s with [] => false | _ :: _ => true end.

(** Truth value of an argument that is [None] or a [str]. *)
Definition truthy_opt (o : option pystr) : bool :=
  match o with Some s => truthy s | None => false end.

(** The code points Python takes for whitespace in [str.split()] and
    [str.strip()] called without argument. *)
Definition isspace (c : N) : bool :=
  (((0x09 <=? c) && (c <=? 0x0D)) || ((0x1C <=? c) && (c <=? 0x20))
   || (c =? 0x85) || (c =? 0xA0) || (c =? 0x1680)
   || ((0x2000 <=? c) && (c <=? 0x200A))
   || (c =? 0x2028) || (c =? 0x2029) || (c =? 0x202F) || (c =? 0x205F)
   || (c =? 0x3000))%N.

(** [text.split()]: a left-to-right scan; [word] is the run of non-space
    code points read so far. Runs of whitespace separate words and never
    produce an empty word. *)
Fixpoint split_from (word : pystr) (s : pystr) : list pystr :=
  match s with
  | [] => match word with [] => [] | _ :: _ => [word] end
  | c :: s' =>
      if isspace c
      then match word with
           | [] => split_from [] s'
           | _ :: _ => word :: split_from [] s'
           end
      else split_from (word ++ [c]) s'
  end.

Definition split (text : pystr) : list pystr := split_from [] text.

(** [sep.join(items)]. *)
Fixpoint join (sep : pystr) (items : list pystr) : pystr :=
  match items with
  | [] => []
  | [w] => w
  | w :: ws => w ++ sep ++ join sep ws
  end.

Fixpoint lstrip (s : pystr) : pystr :=
  match s with
  | [] => []
  | c :: s' => if isspace c then lstrip s' else s
  end.

Definition rstrip (s : pystr) : pystr := rev (lstrip (rev s)).

(** [s.strip()]. *)
Definition strip (s : pystr) : pystr := rstrip (lstrip s).

(** ** [VoiceEngine._apply_alien_effects] (voice_engine.py) *)

(** One turn of [for word in words:], on the list [alien_words] built so
    far. *)
Definition alien_loop_body (alien_words : list pystr) (word : pystr)
  : list pystr :=
  if 3 <? length word
  then let alien_word := take 2 word ++ py "." ++ drop 2 word in
       alien_words ++ [alien_word]
  else alien_words ++ [word].

Definition _apply_alien_effects (text : pystr) : pystr :=
  let words := split text in
  let alien_words := foldl alien_loop_body [] words in
  join (py " ") alien_words.

(** The word the loop appends for [word]. *)
Definition alien_word_of (word : pystr) : pystr :=
  if length word <=? 3 then word else take 2 word ++ py "." ++ drop 2 word.

(** A word of [split]: non-empty, without whitespace. *)
Definition is_word (w : pystr) : Prop :=
  w <> [] /\ Forall (fun c => isspace c = false) w.

(** ** Exceptions

    The exceptions the modelled code can raise on its own data. *)
Inductive exn := IndexError | KeyError | UnboundLocalError.

Inductive result (A : Type) :=
| Returned (a : A)
| Raised (e : exn).
Arguments Returned {A} a.
Arguments Raised {A} e.

(** Reading a local variable: [None] is a local that was never assigned. *)
Definition load_local (v : option pystr) : result pystr :=
  match v with
  | Some t => Returned t
  | None => Raised UnboundLocalError
  end.

(** ** config.py *)

Record VoiceSettings := { rate : Z; pitch : Q }.

Definition VOICE_MODES : gmap (list N) VoiceSettings :=
  {[ py "Male" := {| rate := 200; pitch := 5 # 10 |};
     py "Female" := {| rate := 180; pitch := 8 # 10 |};
     py "Alien" := {| rate := 150; pitch := 3 # 10 |} ]}.

(** ** ai_assistant.py *)

Inductive Role := system | user | assistant.

#[global] Instance Role_eq_dec : EqDecision Role.
Proof. solve_decision. Defined.

(** A message of the history: the dict with keys "role" and "content". *)
Record Message := { role : Role; content : pystr }.

Definition SYSTEM_PROMPT : pystr :=
  py "You are ARIA, a futuristic AI voice assistant. You are helpful, intelligent, and have a slightly futuristic personality. Keep your responses conversational and engaging, but concise enough for speech. You can help with various tasks, answer questions, and have friendly conversations. Always be respectful and helpful.".

(** What the completion service gives back to [process_thread]: the content
    of the first choice, or an exception ([e] is [str(e)]). *)
Inductive completion_result :=
| Reply (content : pystr)
| CompletionError (e : pystr).

Module AIAssistant.

Record t := {
  conversation_history : list Message;
  is_processing : bool
}.

Definition __init__ : t :=
  {| conversation_history := [ {| role := system; content := SYSTEM_PROMPT |} ];
     is_processing := false |}.

Definition append (h : list Message) (r : Role) (c : pystr) : list Message :=
  h ++ [ {| role := r; content := c |} ].

(** The two lines of [get_response] that keep the history manageable:
    [if len(h) > 21: h = [h[0]] + h[-20:]]. The slice [h[-20:]] is the last
    20 entries (all of them when there are fewer). *)
Definition trim (h : list Message) : list Message :=
  if 21 <? length h
  then match h with
       | m0 :: _ => [m0] ++ drop (length h - 20) h
       | [] => h
       end
  else h.

(** [process_thread], up to the call of the completion service: the flag is
    raised and the user message appended. *)
Definition process_thread_begin (self : t) (user_input : pystr) : t :=
  {| conversation_history := append (conversation_history self) user user_input;
     is_processing := true |}.

(** [process_thread], from the return of the completion service to the call
    of the callback: the new state and the arguments [(response, error)] the
    callback gets. *)
Definition process_thread_result (self : t) (r : completion_result)
  : t * (option pystr * option pystr) :=
  match r with
  | Reply content =>
      let ai_response := strip content in
      let h := append (conversation_history self) assistant ai_response in
      ({| conversation_history := trim h; is_processing := is_processing self |},
       (Some ai_response, None))
  | CompletionError e =>
      let error_msg := py "AI Error: " ++ e in
      (self, (None, Some error_msg))
  end.

(** [finally: self.is_processing = False]. *)
Definition process_thread_finally (self : t) : t :=
  {| conversation_history := conversation_history self; is_processing := false |}.

Definition clear_conversation (self : t) : result t :=
  match conversation_history self with
  | m0 :: _ =>
      Returned {| conversation_history := [m0]; is_processing := is_processing self |}
  | [] => Raised IndexError
  end.

Definition set_system_prompt (self : t) (prompt : pystr) : result t :=
  match conversation_history self with
  | m0 :: h =>
      Returned {| conversation_history := {| role := role m0; content := prompt |} :: h;
                  is_processing := is_processing self |}
  | [] => Raised IndexError
  end.

(** What [get_conversation_summary] returns: the dict with these three
    keys. *)
Record Summary := {
  total_exchanges : nat;
  last_user_message : option pystr;
  last_assistant_message : option pystr
}.

Definition get_conversation_summary (self : t) : Summary :=
  let user_messages :=
    content <$> filter (fun msg => role msg = user) (conversation_history self) in
  let assistant_messages :=
    content <$> filter (fun msg => role msg = assistant) (conversation_history self) in
  {| total_exchanges := length user_messages;
     last_user_message := last user_messages;
     last_assistant_message := last assistant_messages |}.

End AIAssistant.

(** *** Sequences of operations on the history *)

Inductive store_op :=
| Append_user (c : pystr)
| Append_assistant (c : pystr)
| Trim
| Clear
| Set_system_prompt (prompt : pystr).

Definition apply_store_op (self : AIAssistant.t) (op : store_op)
  : result AIAssistant.t :=
  let h := AIAssistant.conversation_history self in
  let with_history h' :=
    {| AIAssistant.conversation_history := h';
       AIAssistant.is_processing := AIAssistant.is_processing self |} in
  match op with
  | Append_user c => Returned (with_history (AIAssistant.append h user c))
  | Append_assistant c => Returned (with_history (AIAssistant.append h assistant c))
  | Trim => Returned (with_history (AIAssistant.trim h))
  | Clear => AIAssistant.clear_conversation self
  | Set_system_prompt p => AIAssistant.set_system_prompt self p
  end.

Fixpoint run_store_ops (self : AIAssistant.t) (ops : list store_op)
  : result AIAssistant.t :=
  match ops with
  | [] => Returned self
  | op :: ops' =>
      match apply_store_op self op with
      | Returned self' => run_store_ops self' ops'
      | Raised e => Raised e
      end
  end.

(** The prompt in force after [ops], starting from [p]. *)
Fixpoint prompt_after (p : pystr) (ops : list store_op) : pystr :=
  match ops with
  | [] => p
  | Set_system_prompt q :: ops' => prompt_after q ops'
  | _ :: ops' => prompt_after p ops'
  end.

Definition count_role (r : Role) (h : list Message) : nat :=
  length (filter (fun m => role m = r) h).

(** ** voice_engine.py *)

(** An installed voice of the speech synthesiser. *)
Record Voice := { voice_id : pystr; voice_name : pystr }.

(** The speech synthesiser: the installed voices and the three properties
    the engine sets ([None]: still the driver's default). *)
Record TTS := {
  tts_voices : list Voice;
  tts_voice : option pystr;
  tts_rate : option Z;
  tts_volume : option Q
}.

Module VoiceEngine.

Record t := {
  tts_engine : TTS;
  current_voice_mode : pystr;
  is_listening : bool;
  is_speaking : bool
}.

Definition __init__ (installed : list Voice) : t :=
  {| tts_engine := {| tts_voices := installed; tts_voice := None;
                      tts_rate := None; tts_volume := None |};
     current_voice_mode := py "Male";
     is_listening := false;
     is_speaking := false |}.

Definition set_is_listening (b : bool) (self : t) : t :=
  {| tts_engine := tts_engine self; current_voice_mode := current_voice_mode self;
     is_listening := b; is_speaking := is_speaking self |}.

Definition set_is_speaking (b : bool) (self : t) : t :=
  {| tts_engine := tts_engine self; current_voice_mode := current_voice_mode self;
     is_listening := is_listening self; is_speaking := b |}.

(** [_configure_tts_voice]: the state it leaves and the exception it raises,
    if any. [VOICE_MODES[...]] raises on an unknown mode, [voices[0]] on an
    empty list; both are raised before any property is set. *)
Definition _configure_tts_voice (self : t) : t * option exn :=
  let voices := tts_voices (tts_engine self) in
  match VOICE_MODES !! current_voice_mode self with
  | None => (self, Some KeyError)
  | Some settings =>
      let chosen :=
        if bool_decide (current_voice_mode self = py "Female") && (1 <? length voices)
        then voices !! 1
        else voices !! 0 in
      match chosen with
      | None => (self, Some IndexError)
      | Some v =>
          ({| tts_engine := {| tts_voices := voices;
                               tts_voice := Some (voice_id v);
                               tts_rate := Some (rate settings);
                               tts_volume := Some (9 # 10)%Q |};
              current_voice_mode := current_voice_mode self;
              is_listening := is_listening self;
              is_speaking := is_speaking self |}, None)
      end
  end.

Definition set_voice_mode (self : t) (mode : pystr) : t * option exn :=
  match VOICE_MODES !! mode with
  | Some _ =>
      _configure_tts_voice
        {| tts_engine := tts_engine self; current_voice_mode := mode;
           is_listening := is_listening self; is_speaking := is_speaking self |}
  | None => (self, None)
  end.

(** The text [speak_thread] hands to [say]. [text] is the local variable of
    [speak_thread]: the assignment in the Alien branch makes the name local
    to the nested function, so it does not see the parameter of [speak]. *)
Definition speak_thread_text (self : t) (text : option pystr) : result pystr :=
  if bool_decide (current_voice_mode self = py "Alien")
  then match load_local text with
       | Returned t => Returned (_apply_alien_effects t)
       | Raised e => Raised e
       end
  else load_local text.

(** [speak_thread], up to [runAndWait]: either the thread is now playing the
    text, or an exception was raised, printed by the handler, and the thread
    is over (the callback is not called). In both cases the state is given
    before [finally]. When the thread starts its local [text] is not yet
    assigned. *)
Definition speak_thread_begin (self : t) : t * result pystr :=
  let self := set_is_speaking true self in
  match _configure_tts_voice self with
  | (self, Some e) => (self, Raised e)
  | (self, None) => (self, speak_thread_text self None)
  end.

(** [tts_engine.stop()] does not raise in the model. *)
Definition stop_speaking (self : t) : t := set_is_speaking false self.

Definition get_available_voices (self : t) : list pystr :=
  voice_name <$> tts_voices (tts_engine self).

End VoiceEngine.

(** ** animated_circle.py *)

Module AnimatedCircle.

Record t := { is_active : bool; is_listening : bool; is_processing : bool }.

#[global] Instance eq_dec : EqDecision t.
Proof. solve_decision. Defined.

Definition __init__ : t :=
  {| is_active := false; is_listening := false; is_processing := false |}.

Definition set_state (state : pystr) : t :=
  {| is_listening := bool_decide (state = py "listening");
     is_processing := bool_decide (state = py "processing");
     is_active := bool_decide (state = py "listening")
                  || bool_decide (state = py "processing") |}.

End AnimatedCircle.

(** ** main_window.py

    The handlers of [VoiceAssistantApp] and the worker threads they start.
    A worker thread runs at once up to its blocking call to an external
    service (so its busy flag is up as soon as the handler that started it
    returns: the schedule that helps the guard of [on_circle_clicked] most)
    and stays in [threads] until that call returns; its return is an event
    of its own. The callbacks run in the worker, between the return of the
    service and the [finally] clause. The unused field
    [current_conversation] is left out. *)

(** A worker blocked in an external call. [cycle] is not data of the
    program: it records which interaction cycle (the count of accepted
    clicks on the circle) started the worker, so that the properties can
    speak of the cycle a callback belongs to. *)
Inductive worker :=
| listen_thread (cycle : nat)
| process_thread (cycle : nat)
| speak_thread (cycle : nat) (text : pystr) (callback : bool).

Definition worker_cycle (w : worker) : nat :=
  match w with
  | listen_thread c | process_thread c | speak_thread c _ _ => c
  end.

(** What the speech recogniser gives back to [listen_thread]. The last case
    is any exception that is none of the three the thread catches. *)
Inductive listen_result :=
| Heard (text : pystr)
| WaitTimeoutError
| UnknownValueError
| RequestError (e : pystr)
| OtherListenError.

(** What [say] and [runAndWait] give back to [speak_thread]. *)
Inductive speak_result := Spoken | SpeakError.

Inductive event :=
| circle_clicked
| currentTextChanged (mode : pystr)
| clear_button_clicked
| test_button_clicked
| listen_returns (i : nat) (r : listen_result)
| completion_returns (i : nat) (r : completion_result)
| speak_returns (i : nat) (r : speak_result).

Module VoiceAssistantApp.

Record t := {
  voice_engine : VoiceEngine.t;
  ai_assistant : AIAssistant.t;
  animated_circle : AnimatedCircle.t;
  voice_selector : pystr;
  status_label : pystr;
  status_bar : pystr;
  (** the lines of the conversation display, as (speaker, message); the time
      stamp and the markup are left out *)
  conversation_display : list (pystr * pystr);
  (** the workers that are blocked in an external call, oldest first *)
  threads : list worker;
  (** the count of clicks on the circle that were accepted: bookkeeping of
      the model, which no handler reads but to tag a worker *)
  cycle : nat
}.

Definition __init__ (installed : list Voice) : t :=
  {| voice_engine := VoiceEngine.__init__ installed;
     ai_assistant := AIAssistant.__init__;
     animated_circle := AnimatedCircle.__init__;
     voice_selector := py "Male";
     status_label := py "Click the circle to start voice interaction";
     status_bar := py "Ready";
     conversation_display := [];
     threads := [];
     cycle := 0 |}.

Definition with_voice_engine (v : VoiceEngine.t) (self : t) : t :=
  {| voice_engine := v; ai_assistant := ai_assistant self;
     animated_circle := animated_circle self;
     voice_selector := voice_selector self; status_label := status_label self;
     status_bar := status_bar self;
     conversation_display := conversation_display self;
     threads := threads self; cycle := cycle self |}.

Definition with_ai_assistant (a : AIAssistant.t) (self : t) : t :=
  {| voice_engine := voice_engine self; ai_assistant := a;
     animated_circle := animated_circle self;
     voice_selector := voice_selector self; status_label := status_label self;
     status_bar := status_bar self;
     conversation_display := conversation_display self;
     threads := threads self; cycle := cycle self |}.

Definition with_threads (ws : list worker) (self : t) : t :=
  {| voice_engine := voice_engine self; ai_assistant := ai_assistant self;
     animated_circle := animated_circle self;
     voice_selector := voice_selector self; status_label := status_label self;
     status_bar := status_bar self;
     conversation_display := conversation_display self;
     threads := ws; cycle := cycle self |}.

(** [status_label.setText], [status_bar.setText], [animated_circle.set_state]. *)
Definition show (label bar : pystr) (state : pystr) (self : t) : t :=
  {| voice_engine := voice_engine self; ai_assistant := ai_assistant self;
     animated_circle := AnimatedCircle.set_state state;
     voice_selector := voice_selector self; status_label := label;
     status_bar := bar;
     conversation_display := conversation_display self;
     threads := threads self; cycle := cycle self |}.

Definition set_status (label bar : pystr) (self : t) : t :=
  {| voice_engine := voice_engine self; ai_assistant := ai_assistant self;
     animated_circle := animated_circle self;
     voice_selector := voice_selector self; status_label := label;
     status_bar := bar;
     conversation_display := conversation_display self;
     threads := threads self; cycle := cycle self |}.

Definition set_status_bar (bar : pystr) (self : t) : t :=
  set_status (status_label self) bar self.

Definition add_to_conversation (speaker message : pystr) (self : t) : t :=
  {| voice_engine := voice_engine self; ai_assistant := ai_assistant self;
     animated_circle := animated_circle self;
     voice_selector := voice_selector self; status_label := status_label self;
     status_bar := status_bar self;
     conversation_display := conversation_display self ++ [(speaker, message)];
     threads := threads self; cycle := cycle self |}.

Definition next_cycle (self : t) : t :=
  {| voice_engine := voice_engine self; ai_assistant := ai_assistant self;
     animated_circle := animated_circle self;
     voice_selector := voice_selector self; status_label := status_label self;
     status_bar := status_bar self;
     conversation_display := conversation_display self;
     threads := threads self; cycle := S (cycle self) |}.

Definition spawn (w : worker) (self : t) : t :=
  with_threads (threads self ++ [w]) self.

(** *** Starting the workers *)

(** [voice_engine.listen_for_speech(self.on_speech_recognized)]. *)
Definition listen_for_speech (self : t) : t :=
  spawn (listen_thread (cycle self))
    (with_voice_engine (VoiceEngine.set_is_listening true (voice_engine self)) self).

(** [ai_assistant.get_response(text, self.on_ai_response)]. *)
Definition get_response (user_input : pystr) (self : t) : t :=
  spawn (process_thread (cycle self))
    (with_ai_assistant
       (AIAssistant.process_thread_begin (ai_assistant self) user_input) self).

(** [voice_engine.speak(text, callback)]. When [speak_thread] raises before
    it plays anything, the handler prints the exception, [finally] lowers
    the flag and the thread is over. The parameter [text] is not read:
    inside [speak_thread] the name is the thread's own local. *)
Definition speak (text : pystr) (callback : bool) (self : t) : t :=
  match VoiceEngine.speak_thread_begin (voice_engine self) with
  | (v, Returned said) =>
      spawn (speak_thread (cycle self) said callback) (with_voice_engine v self)
  | (v, Raised _) =>
      with_voice_engine (VoiceEngine.set_is_speaking false v) self
  end.

(** *** The handlers *)

Definition on_circle_clicked (self : t) : t :=
  if VoiceEngine.is_listening (voice_engine self)
     || VoiceEngine.is_speaking (voice_engine self)
  then self
  else
    let self := show (py "Listening... Speak now!")
                     (py "Listening for voice input...") (py "listening") self in
    listen_for_speech (next_cycle self).

Definition on_speech_complete (self : t) : t :=
  show (py "Click the circle to start voice interaction") (py "Ready")
       (py "idle") self.

Definition on_ai_response (response error : option pystr) (self : t) : t :=
  match error with
  | Some ((_ :: _) as error) =>
      show (py "AI Error: " ++ error) (py "Ready") (py "idle") self
  | _ =>
      match response with
      | Some ((_ :: _) as response) =>
          let self := add_to_conversation (py "ARIA") response self in
          let self := set_status (py "Speaking response...")
                                 (py "Playing AI response...") self in
          speak response true self
      | _ => self
      end
  end.

Definition on_speech_recognized (text error : option pystr) (self : t) : t :=
  match error with
  | Some ((_ :: _) as error) =>
      show (py "Error: " ++ error) (py "Ready") (py "idle") self
  | _ =>
      match text with
      | Some ((_ :: _) as text) =>
          let self := show (py "Processing your request...")
                           (py "Getting AI response...") (py "processing") self in
          let self := add_to_conversation (py "You") text self in
          get_response text self
      | _ => self
      end
  end.

(** [on_voice_mode_changed] and [clear_conversation] can raise: they give
    the state they leave and the exception, if any. *)
Definition on_voice_mode_changed (mode : pystr) (self : t) : t * option exn :=
  match VoiceEngine.set_voice_mode (voice_engine self) mode with
  | (v, None) =>
      (set_status_bar (py "Voice mode changed to: " ++ mode)
         (with_voice_engine v self), None)
  | (v, Some e) => (with_voice_engine v self, Some e)
  end.

Definition clear_conversation (self : t) : t * option exn :=
  let self :=
    {| voice_engine := voice_engine self; ai_assistant := ai_assistant self;
       animated_circle := animated_circle self;
       voice_selector := voice_selector self; status_label := status_label self;
       status_bar := status_bar self;
       conversation_display := [];
       threads := threads self; cycle := cycle self |} in
  match AIAssistant.clear_conversation (ai_assistant self) with
  | Returned a =>
      (set_status_bar (py "Conversation cleared") (with_ai_assistant a self), None)
  | Raised e => (self, Some e)
  end.

(** [closeEvent]: the window closes after it. *)
Definition closeEvent (self : t) : t :=
  with_voice_engine (VoiceEngine.stop_speaking (voice_engine self)) self.

Definition test_tts (self : t) : t :=
  let test_message :=
    py "Testing " ++ voice_selector self
    ++ py " voice mode. Hello, I am ARIA, your futuristic voice assistant." in
  let self := speak test_message false self in
  set_status_bar (py "Testing " ++ voice_selector self ++ py " voice...") self.

(** *** The returns of the workers *)

Definition listen_thread_returns (r : listen_result) (self : t) : t :=
  let self :=
    match r with
    | Heard text => on_speech_recognized (Some text) None self
    | WaitTimeoutError =>
        on_speech_recognized None (Some (py "Listening timeout")) self
    | UnknownValueError =>
        on_speech_recognized None (Some (py "Could not understand audio")) self
    | RequestError e =>
        on_speech_recognized None (Some (py "Could not request results; " ++ e)) self
    | OtherListenError => self
    end in
  with_voice_engine (VoiceEngine.set_is_listening false (voice_engine self)) self.

Definition process_thread_returns (r : completion_result) (self : t) : t :=
  let (a, args) := AIAssistant.process_thread_result (ai_assistant self) r in
  let self := with_ai_assistant a self in
  let self := on_ai_response (fst args) (snd args) self in
  with_ai_assistant (AIAssistant.process_thread_finally (ai_assistant self)) self.

Definition speak_thread_returns (callback : bool) (r : speak_result) (self : t) : t :=
  let self :=
    match r with
    | Spoken => if callback then on_speech_complete self else self
    | SpeakError => self
    end in
  with_voice_engine (VoiceEngine.set_is_speaking false (voice_engine self)) self.

(** *** The event loop *)

(** One event. [None]: the event cannot happen in this state (no such worker
    is waiting), or its handler raised an exception that nothing catches. *)
Definition step (self : t) (ev : event) : option t :=
  match ev with
  | circle_clicked => Some (on_circle_clicked self)
  | currentTextChanged mode =>
      let self :=
        {| voice_engine := voice_engine self; ai_assistant := ai_assistant self;
           animated_circle := animated_circle self;
           voice_selector := mode; status_label := status_label self;
           status_bar := status_bar self;
           conversation_display := conversation_display self;
           threads := threads self; cycle := cycle self |} in
      match on_voice_mode_changed mode self with
      | (self, None) => Some self
      | (_, Some _) => None
      end
  | clear_button_clicked =>
      match clear_conversation self with
      | (self, None) => Some self
      | (_, Some _) => None
      end
  | test_button_clicked => Some (test_tts self)
  | listen_returns i r =>
      match threads self !! i with
      | Some (listen_thread _) =>
          Some (listen_thread_returns r (with_threads (delete i (threads self)) self))
      | _ => None
      end
  | completion_returns i r =>
      match threads self !! i with
      | Some (process_thread _) =>
          Some (process_thread_returns r (with_threads (delete i (threads self)) self))
      | _ => None
      end
  | speak_returns i r =>
      match threads self !! i with
      | Some (speak_thread _ _ callback) =>
          Some (speak_thread_returns callback r
                  (with_threads (delete i (threads self)) self))
      | _ => None
      end
  end.

Fixpoint run (self : t) (evs : list event) : option t :=
  match evs with
  | [] => Some self
  | ev :: evs' =>
      match step self ev with
      | Some self' => run self' evs'
      | None => None
      end
  end.

End VoiceAssistantApp.

(** *** The state of the interaction, as the program exposes it *)

Inductive InteractionState := Idle | Listening | Processing | Speaking.

(** The state the busy flags of the workers stand for. *)
Definition busy_state (self : VoiceAssistantApp.t) : InteractionState :=
  if VoiceEngine.is_listening (VoiceAssistantApp.voice_engine self) then Listening
  else if AIAssistant.is_processing (VoiceAssistantApp.ai_assistant self) then Processing
  else if VoiceEngine.is_speaking (VoiceAssistantApp.voice_engine self) then Speaking
  else Idle.

(** The state shown to the user, by the circle and the status label. The
    circle knows three states; while the reply is spoken it stays as it was
    and only the label tells. *)
Definition shown_idle (self : VoiceAssistantApp.t) : bool :=
  bool_decide (VoiceAssistantApp.animated_circle self = AnimatedCircle.set_state (py "idle")).

Definition history (self : VoiceAssistantApp.t) : list Message :=
  AIAssistant.conversation_history (VoiceAssistantApp.ai_assistant self).


(** ** demo.py, demo_pyside.py: the assistant of the demo

    [DemoAIAssistant] is the same in both files but for the timer that
    delays the response. *)

Module DemoAIAssistant.

Definition responses : list pystr :=
  [ py "Hello! I'm ARIA, your futuristic voice assistant. This is a demo version!";
    py "I'm working perfectly! The holographic interface is quite stunning, isn't it?";
    py "In this demo, I can show you how the voice assistant interface works.";
    py "The animated circle represents my consciousness. Pretty cool, right?";
    py "This futuristic design showcases what's possible with modern UI technology.";
    py "I would normally be powered by GPT-4, but this demo works offline!";
    py "You can test different voice modes using the dropdown above.";
    py "The conversation history keeps track of our entire discussion.";
    py "Thank you for trying out this futuristic voice assistant demo!" ].

(** [self.responses] is set by the constructor and never assigned again;
    the state is the index. *)
Record t := { response_index : nat }.

Definition __init__ : t := {| response_index := 0 |}.

(** [delayed_response] ([_deliver_response] in demo_pyside.py), after the
    delay: the state it leaves and the response it hands to the callback;
    [None] when the subscript raises, before the index is touched. *)
Definition delayed_response (self : t) : t * option pystr :=
  match responses !! (response_index self mod length responses) with
  | Some response => ({| response_index := response_index self + 1 |}, Some response)
  | None => (self, None)
  end.

Definition clear_conversation (self : t) : t := {| response_index := 0 |}.

End DemoAIAssistant.

(** The state after [k] responses were delivered. *)
Definition after_responses (k : nat) (self : DemoAIAssistant.t) : DemoAIAssistant.t :=
  Nat.iter k (fun s => fst (DemoAIAssistant.delayed_response s)) self.

(** ** Vocabulary of the properties *)

(** The mode names of [VOICE_MODES]. *)
Definition known_modes : list pystr := [py "Male"; py "Female"; py "Alien"].

Definition set_worker_cycle (c : nat) (w : worker) : worker :=
  match w with
  | listen_thread _ => listen_thread c
  | process_thread _ => process_thread c
  | speak_thread _ text callback => speak_thread c text callback
  end.

(** The same state, with the worker at index [i] passed off as a worker of
    cycle [c]. *)
Definition retag (i c : nat) (s : VoiceAssistantApp.t) : VoiceAssistantApp.t :=
  VoiceAssistantApp.with_threads
    (alter (set_worker_cycle c) i (VoiceAssistantApp.threads s)) s.

Definition is_speak_thread (w : worker) : bool :=
  match w with speak_thread _ _ _ => true | _ => false end.

(** No worker is playing speech, and the history begins with the system
    message of the constructor. *)
Definition app_invariant (s : VoiceAssistantApp.t) : Prop :=
  Forall (fun w => is_speak_thread w = false) (VoiceAssistantApp.threads s)
  /\ exists rest,
       history s = {| role := system; content := SYSTEM_PROMPT |} :: rest.

(** *** Whole exchanges on the assistant *)

(** One call of [get_response] with [question], whose completion call
    returns [reply]: the thread from its start to its end. *)
Definition successful_exchange (a : AIAssistant.t) (qa : pystr * pystr)
  : AIAssistant.t :=
  AIAssistant.process_thread_finally
    (fst (AIAssistant.process_thread_result
            (AIAssistant.process_thread_begin a (fst qa)) (Reply (snd qa)))).

(** One call of [get_response] whose completion call raises. *)
Definition failed_call (a : AIAssistant.t) (question e : pystr) : AIAssistant.t :=
  AIAssistant.process_thread_finally
    (fst (AIAssistant.process_thread_result
            (AIAssistant.process_thread_begin a question) (CompletionError e))).

Definition successful_exchanges (a : AIAssistant.t) (qas : list (pystr * pystr))
  : AIAssistant.t :=
  foldl successful_exchange a qas.

(** The two messages an exchange leaves in the history. *)
Definition exchange_messages (qa : pystr * pystr) : list Message :=
  [ {| role := user; content := fst qa |};
    {| role := assistant; content := strip (snd qa) |} ].

(** Calls of [set_voice_mode] one after the other, exceptions let go. *)
Definition set_voice_modes (v : VoiceEngine.t) (modes : list pystr) : VoiceEngine.t :=
  foldl (fun v mode => fst (VoiceEngine.set_voice_mode v mode)) v modes.

Definition is_listen_thread (w : worker) : bool :=
  match w with listen_thread _ => true | _ => false end.

(** How many workers are listening to the microphone. *)
Definition count_listen (ws : list worker) : nat :=
  length (filter (fun w => is_listen_thread w = true) ws).

(** Nothing is being spoken, and the flag [is_listening] tells whether a
    worker is listening: one when it is up, none when it is down. *)
Definition listening_invariant (s : VoiceAssistantApp.t) : Prop :=
  VoiceEngine.is_speaking (VoiceAssistantApp.voice_engine s) = false
  /\ count_listen (VoiceAssistantApp.threads s)
     = if VoiceEngine.is_listening (VoiceAssistantApp.voice_engine s) then 1 else 0.

(** The lines an event adds to the conversation display. *)
Definition display_added (ev : event) : list (pystr * pystr) :=
  match ev with
  | listen_returns _ (Heard (c :: text)) => [(py "You", c :: text)]
  | completion_returns _ (Reply content) =>
      match strip content with
      | [] => []
      | c :: reply => [(py "ARIA", c :: reply)]
      end
  | _ => []
  end.

(** ** Concrete runs *)

(** The system message and eleven exchanges: 23 entries. *)
Definition eleven_exchanges : list Message :=
  {| role := system; content := SYSTEM_PROMPT |}
  :: flat_map (fun n : nat =>
       [ {| role := user; content := py "question " ++ [N.of_nat n] |};
         {| role := assistant; content := py "answer " ++ [N.of_nat n] |} ])
     (seq 1 11).

Definition two_voices : list Voice :=
  [ {| voice_id := py "voice.0"; voice_name := py "David" |};
    {| voice_id := py "voice.1"; voice_name := py "Zira" |} ].

(** The window, on a machine with two voices. *)
Definition app0 : VoiceAssistantApp.t := VoiceAssistantApp.__init__ two_voices.

(** A click, then the recogniser returns "hello". *)
Definition hello_heard : list event :=
  [ circle_clicked; listen_returns 0 (Heard (py "hello")) ].

(** A click, "hello" heard, and a second click while the completion call is
    outstanding: the second cycle has begun. *)
Definition second_cycle_begun : list event := hello_heard ++ [circle_clicked].

Definition exchange : list event :=
  [ circle_clicked;
    listen_returns 0 (Heard (py "what time is it"));
    completion_returns 0 (Reply (py "It is noon.")) ].

Definition failed_exchange : list event :=
  [ circle_clicked;
    listen_returns 0 (Heard (py "what time is it"));
    completion_returns 0 (CompletionError (py "Connection error.")) ].

(** Ten exchanges that succeed, then one whose completion call fails. *)
Definition ten_exchanges_and_a_failure : list event :=
  concat (replicate 10 exchange) ++ failed_exchange.

(** * Properties *)

Example alien_hello :
  _apply_alien_effects (py "  hello   big wide  world ")
  = py "he.llo big wi.de wo.rld".
Proof. reflexivity. Qed.

Example split_unicode_space :
  split (py "ab" ++ [0x2003%N] ++ py "cd" ++ [0x85%N; 0x0A%N] ++ py "e")
  = [py "ab"; py "cd"; py "e"].
Proof. reflexivity. Qed.

Example strip_ex : strip (py "  hi there " ++ [0x0A%N]) = py "hi there".
Proof. reflexivity. Qed.

(** *** Words *)

Section SplitJoin.

Local Abbreviation nospace := (Forall (fun c => isspace c = false)).

Lemma split_from_run (x w rest : pystr) :
  nospace x -> split_from w (x ++ rest) = split_from (w ++ x) rest.
Proof.
  intros Hx; revert w; induction Hx as [|c x Hc _ IH]; intros w; simpl.
  - by rewrite app_nil_r.
  - rewrite Hc, IH. by rewrite <- app_assoc.
Qed.

Lemma split_from_words (s w : pystr) :
  nospace w -> Forall is_word (split_from w s).
Proof.
  revert w; induction s as [|c s IH]; intros w Hw; simpl.
  - destruct w; [constructor|]. apply Forall_singleton. by split.
  - destruct (isspace c) eqn:Hc.
    + destruct w as [|d w]; [by apply IH|].
      constructor; [by split|by apply IH].
    + apply IH, Forall_app; split; [assumption|by repeat constructor].
Qed.

Lemma split_words (text : pystr) : Forall is_word (split text).
Proof. apply split_from_words; constructor. Qed.

Lemma isspace_space : isspace 32%N = true.
Proof. reflexivity. Qed.

(** Scanning the join of words, with [w] already read. *)
Lemma split_from_join (ws : list pystr) :
  Forall is_word ws ->
  forall w, split_from w (join (py " ") ws)
            = match ws with
              | [] => match w with [] => [] | _ :: _ => [w] end
              | x :: ws' => (w ++ x) :: ws'
              end.
Proof.
  induction 1 as [|x ws [Hne Hx] Hws IH]; intros w; [done|].
  destruct ws as [|y ws].
  - simpl. rewrite <- (app_nil_r x) at 1. rewrite split_from_run by done.
    simpl. destruct (w ++ x) eqn:E; [|done].
    apply app_eq_nil in E as [_ ->]; done.
  - change (join (py " ") (x :: y :: ws))
      with (x ++ 32%N :: join (py " ") (y :: ws)).
    rewrite split_from_run by done.
    cbn [split_from]. rewrite isspace_space, IH. simpl.
    destruct (w ++ x) eqn:E; [|done].
    apply app_eq_nil in E as [_ ->]; done.
Qed.

Lemma split_join (ws : list pystr) :
  Forall is_word ws -> split (join (py " ") ws) = ws.
Proof.
  intros H. unfold split. rewrite split_from_join by done.
  by destruct ws.
Qed.

End SplitJoin.

Lemma alien_loop_is_map (words acc : list pystr) :
  foldl alien_loop_body acc words = acc ++ (alien_word_of <$> words).
Proof.
  revert acc; induction words as [|w words IH]; intros acc; simpl.
  - by rewrite app_nil_r.
  - rewrite IH. unfold alien_loop_body, alien_word_of.
    destruct (Nat.ltb_spec 3 (length w)), (Nat.leb_spec (length w) 3);
      try lia; by rewrite <- app_assoc.
Qed.

Lemma alien_word_is_word (w : pystr) : is_word w -> is_word (alien_word_of w).
Proof.
  intros [Hne Hw]. unfold alien_word_of.
  destruct (length w <=? 3); [by split|]. split.
  - intros E. apply app_eq_nil in E as [_ E]. discriminate E.
  - apply Forall_app; split; [by apply Forall_take|].
    apply Forall_app; split; [by repeat constructor|by apply Forall_drop].
Qed.

(** C10. The alien transform works word by word: the text is the words of
    the input, each left as it is when its length is at most 3 and otherwise
    cut after its second character with a '.' put in between, joined by
    single spaces; the result splits into exactly these words, so the number
    of whitespace-separated words is preserved. *)
Theorem alien_effects_wordwise (text : pystr) :
  _apply_alien_effects text = join (py " ") (alien_word_of <$> split text)
  /\ split (_apply_alien_effects text) = alien_word_of <$> split text
  /\ length (split (_apply_alien_effects text)) = length (split text)
  /\ (forall w, length w <= 3 -> alien_word_of w = w)
  /\ (forall w, 3 < length w ->
        alien_word_of w = take 2 w ++ [46%N] ++ drop 2 w).
Proof.
  assert (E : _apply_alien_effects text
              = join (py " ") (alien_word_of <$> split text)).
  { unfold _apply_alien_effects. by rewrite alien_loop_is_map. }
  assert (S : split (_apply_alien_effects text) = alien_word_of <$> split text).
  { rewrite E. apply split_join.
    apply Forall_fmap. eapply Forall_impl; [apply split_words|].
    intros w Hw. by apply alien_word_is_word. }
  repeat split; try done.
  - by rewrite S, length_fmap.
  - intros w Hw. unfold alien_word_of.
    by destruct (Nat.leb_spec (length w) 3); [|lia].
  - intros w Hw. unfold alien_word_of.
    by destruct (Nat.leb_spec (length w) 3); [lia|].
Qed.

Lemma alien_effects_wordwise_witness :
  length (py "hi!") <= 3
  /\ alien_word_of (py "hi!") = py "hi!"
  /\ 3 < length (py "hello")
  /\ alien_word_of (py "hello") = py "he" ++ [46%N] ++ py "llo".
Proof.
  destruct (alien_effects_wordwise (py "hi! hello")) as (_ & _ & _ & Hshort & Hlong).
  assert (H1 : length (py "hi!") <= 3) by (vm_compute; lia).
  assert (H2 : 3 < length (py "hello")) by (vm_compute; lia).
  split; [exact H1|]. split; [exact (Hshort (py "hi!") H1)|].
  split; [exact H2|]. exact (Hlong (py "hello") H2).
Defined.

(** ** The conversation history *)

Section History.

Import AIAssistant.

Lemma length_append (h : list Message) (r : Role) (c : pystr) :
  length (append h r c) = S (length h).
Proof. unfold append. rewrite length_app. simpl. lia. Qed.

(** What [trim] does to a history that is over the cap. *)
Lemma trim_over (m0 : Message) (rest : list Message) :
  20 < length rest ->
  trim (m0 :: rest) = m0 :: drop (length rest - 20) rest
  /\ length (drop (length rest - 20) rest) = 20.
Proof.
  intros H. unfold trim.
  destruct (Nat.ltb_spec 21 (length (m0 :: rest))) as [_|Hle]; [|simpl in Hle; lia].
  split; [|rewrite length_drop; lia].
  simpl length. replace (S (length rest) - 20) with (S (length rest - 20)) by lia.
  reflexivity.
Qed.

Lemma trim_within (h : list Message) : length h <= 21 -> trim h = h.
Proof.
  intros H. unfold trim.
  by destruct (Nat.ltb_spec 21 (length h)); [lia|].
Qed.

Lemma length_trim (h : list Message) : length (trim h) = length h `min` 21.
Proof.
  destruct (Nat.le_gt_cases (length h) 21) as [H|H].
  - rewrite trim_within by done. lia.
  - destruct h as [|m0 rest]; [simpl in H; lia|]. simpl in H.
    destruct (trim_over m0 rest) as [-> Hk]; [lia|]. simpl. rewrite Hk. lia.
Qed.

(** [trim] drops a block that comes right after the first entry, and
    nothing else. *)
Lemma trim_evicts_front (m0 : Message) (rest : list Message) :
  exists evicted kept,
    rest = evicted ++ kept
    /\ trim (m0 :: rest) = m0 :: kept
    /\ length evicted = length rest - 20.
Proof.
  destruct (Nat.le_gt_cases (length rest) 20) as [H|H].
  - exists [], rest. rewrite trim_within by (simpl; lia).
    repeat split. simpl. lia.
  - exists (take (length rest - 20) rest), (drop (length rest - 20) rest).
    destruct (trim_over m0 rest) as [-> _]; [lia|].
    rewrite take_drop, length_take. repeat split. lia.
Qed.

End History.

(** C3. A history of more than 21 entries is trimmed to its first entry (the
    system message) followed by its last 20 entries, 21 entries in all; a
    history of at most 21 entries is left as it is, and in both cases the
    first entry stays first. *)
Theorem trim_keeps_first_and_last_20 (h : list Message) :
  (21 < length h ->
   exists m0 evicted kept,
     h = m0 :: evicted ++ kept
     /\ length kept = 20
     /\ AIAssistant.trim h = m0 :: kept
     /\ length (AIAssistant.trim h) = 21)
  /\ (length h <= 21 -> AIAssistant.trim h = h)
  /\ head (AIAssistant.trim h) = head h.
Proof.
  split; [|split].
  - intros H. destruct h as [|m0 rest]; [simpl in H; lia|]. simpl in H.
    destruct (trim_over m0 rest) as [E Hk]; [lia|].
    exists m0, (take (length rest - 20) rest), (drop (length rest - 20) rest).
    rewrite take_drop, E. repeat split; [done|]. simpl. by rewrite Hk.
  - apply trim_within.
  - destruct h as [|m0 rest]; [done|].
    destruct (trim_evicts_front m0 rest) as (ev & kept & _ & -> & _). done.
Qed.

Lemma trim_keeps_first_and_last_20_witness :
  21 < length eleven_exchanges
  /\ (exists m0 evicted kept,
       eleven_exchanges = m0 :: evicted ++ kept
       /\ length kept = 20
       /\ AIAssistant.trim eleven_exchanges = m0 :: kept
       /\ length (AIAssistant.trim eleven_exchanges) = 21)
  /\ length (AIAssistant.conversation_history AIAssistant.__init__) <= 21
  /\ AIAssistant.trim (AIAssistant.conversation_history AIAssistant.__init__)
     = AIAssistant.conversation_history AIAssistant.__init__.
Proof.
  assert (H1 : 21 < length eleven_exchanges) by (vm_compute; lia).
  assert (H2 : length (AIAssistant.conversation_history AIAssistant.__init__) <= 21)
    by (vm_compute; lia).
  split; [exact H1|]. split.
  - exact (proj1 (trim_keeps_first_and_last_20 eleven_exchanges) H1).
  - split; [exact H2|].
    exact (proj1 (proj2 (trim_keeps_first_and_last_20
                           (AIAssistant.conversation_history AIAssistant.__init__))) H2).
Defined.

Example trim_eleven_exchanges :
  AIAssistant.trim eleven_exchanges
  = {| role := system; content := SYSTEM_PROMPT |} :: drop 3 eleven_exchanges.
Proof. reflexivity. Qed.

(** *** The cap *)

(** C4, as stated, fails: after ten exchanges the history has 21 entries; the
    next call of [get_response] appends the user message, its completion
    call fails, and the call completes with 22 entries in the history. (In
    the run, each click is accepted: the thread of [speak] is over as soon
    as it starts.) The same on the assistant alone, from a history of 21
    entries. *)
Lemma failed_completion_exceeds_cap :
  (exists s,
     VoiceAssistantApp.run app0 ten_exchanges_and_a_failure = Some s
     /\ VoiceAssistantApp.threads s = []
     /\ AIAssistant.is_processing (VoiceAssistantApp.ai_assistant s) = false
     /\ length (history s) = 22
     /\ ~ length (history s) <= 21)
  /\ let a := {| AIAssistant.conversation_history := take 21 eleven_exchanges;
                 AIAssistant.is_processing := false |} in
     let a1 := AIAssistant.process_thread_begin a (py "what time is it") in
     let a2 := AIAssistant.process_thread_finally
                 (fst (AIAssistant.process_thread_result a1
                         (CompletionError (py "Connection error.")))) in
     length (AIAssistant.conversation_history a) = 21
     /\ AIAssistant.is_processing a2 = false
     /\ length (AIAssistant.conversation_history a2) = 22.
Proof.
  split.
  - eexists. split; [vm_compute; reflexivity|].
    repeat split; try reflexivity. vm_compute. lia.
  - by repeat split.
Qed.

(** C4, amended. A call of [get_response] whose completion call succeeds
    leaves at most 21 entries, whatever the length before, and what it
    evicts is a block that comes right after the first entry; a call whose
    completion call fails leaves the history of before with the user message
    appended, untrimmed; [clear_conversation] leaves one entry. *)
Theorem history_cap_after_success_and_clear
  (a : AIAssistant.t) (user_input : pystr) :
  let h := AIAssistant.conversation_history a in
  let a1 := AIAssistant.process_thread_begin a user_input in
  let question := {| role := user; content := user_input |} in
  (forall content,
     let a2 := AIAssistant.process_thread_finally
                 (fst (AIAssistant.process_thread_result a1 (Reply content))) in
     let answer := {| role := assistant; content := strip content |} in
     length (AIAssistant.conversation_history a2) <= 21
     /\ exists m0 evicted kept,
          h ++ [question; answer] = m0 :: evicted ++ kept
          /\ AIAssistant.conversation_history a2 = m0 :: kept
          /\ length evicted = length h + 1 - 20)
  /\ (forall e,
     let a2 := AIAssistant.process_thread_finally
                 (fst (AIAssistant.process_thread_result a1 (CompletionError e))) in
     AIAssistant.conversation_history a2 = h ++ [question])
  /\ match AIAssistant.clear_conversation a with
     | Returned a' => length (AIAssistant.conversation_history a') = 1
     | Raised _ => h = []
     end.
Proof.
  intros h a1 question. split; [|split].
  - intros content a2 answer.
    assert (E : AIAssistant.conversation_history a2
                = AIAssistant.trim (h ++ [question; answer])).
    { subst a2 a1 h. simpl. unfold AIAssistant.append.
      by rewrite <- app_assoc. }
    rewrite E. split; [rewrite length_trim; lia|].
    destruct (h ++ [question; answer]) as [|m0 rest] eqn:Hh.
    { by destruct h. }
    destruct (trim_evicts_front m0 rest) as (evicted & kept & -> & -> & Hl).
    exists m0, evicted, kept. repeat split.
    apply (f_equal length) in Hh. rewrite length_app in Hh. simpl in Hh.
    rewrite Hl. lia.
  - reflexivity.
  - unfold AIAssistant.clear_conversation. fold h. by destruct h.
Qed.

(** *** The first entry *)

Lemma store_ops_keep_first (ops : list store_op) :
  forall (a : AIAssistant.t) (m0 : Message) (rest : list Message),
    AIAssistant.conversation_history a = m0 :: rest ->
    exists a' rest',
      run_store_ops a ops = Returned a'
      /\ AIAssistant.conversation_history a'
         = {| role := role m0; content := prompt_after (content m0) ops |} :: rest'.
Proof.
  induction ops as [|op ops IH]; intros a m0 rest Ha.
  - exists a, rest. simpl. split; [done|]. rewrite Ha. by destruct m0.
  - destruct op; simpl.
    + eapply IH. simpl. rewrite Ha. reflexivity.
    + eapply IH. simpl. rewrite Ha. reflexivity.
    + destruct (trim_evicts_front m0 rest) as (ev & kept & _ & E & _).
      eapply IH. simpl. rewrite Ha. exact E.
    + unfold AIAssistant.clear_conversation. rewrite Ha.
      eapply IH. reflexivity.
    + unfold AIAssistant.set_system_prompt. rewrite Ha.
      eapply (IH _ {| role := role m0; content := prompt |}). reflexivity.
Qed.

(** C5. After any sequence of appends of user and assistant messages,
    trims, clears and changes of the system prompt on the history the
    constructor makes, no operation has failed, the history is not empty, and
    its first entry is the system message: its role is system and its
    content is the prompt in force (the constructor's, or the last one
    set). *)
Theorem first_entry_is_system_message (ops : list store_op) :
  exists a rest,
    run_store_ops AIAssistant.__init__ ops = Returned a
    /\ AIAssistant.conversation_history a
       = {| role := system; content := prompt_after SYSTEM_PROMPT ops |} :: rest.
Proof.
  destruct (store_ops_keep_first ops AIAssistant.__init__
              {| role := system; content := SYSTEM_PROMPT |} [])
    as (a & rest & Hr & Hh); [reflexivity|].
  by exists a, rest.
Qed.

(** C6. Whatever was done to the history before, [clear_conversation]
    succeeds and leaves exactly the system message: one entry of role
    system, no user and no assistant message. *)
Theorem clear_leaves_system_message (ops : list store_op) :
  exists a a',
    run_store_ops AIAssistant.__init__ ops = Returned a
    /\ AIAssistant.clear_conversation a = Returned a'
    /\ AIAssistant.conversation_history a'
       = [ {| role := system; content := prompt_after SYSTEM_PROMPT ops |} ]
    /\ count_role user (AIAssistant.conversation_history a') = 0
    /\ count_role assistant (AIAssistant.conversation_history a') = 0.
Proof.
  destruct (store_ops_keep_first ops AIAssistant.__init__
              {| role := system; content := SYSTEM_PROMPT |} [])
    as (a & rest & Hr & Hh); [reflexivity|].
  simpl in Hh. exists a. eexists. split; [exact Hr|].
  unfold AIAssistant.clear_conversation. rewrite Hh.
  split; [reflexivity|]. by repeat split.
Qed.

(** ** The voice mode *)

Lemma VOICE_MODES_known (mode : pystr) :
  is_Some (VOICE_MODES !! mode) <-> mode ∈ known_modes.
Proof.
  unfold VOICE_MODES, known_modes.
  rewrite !lookup_insert, lookup_singleton, !elem_of_cons, elem_of_nil.
  split.
  - intros Hs. repeat case_decide; subst; auto. by apply is_Some_None in Hs.
  - intros Hm. repeat case_decide; eauto. exfalso. intuition congruence.
Qed.

Lemma configure_keeps_the_rest (v : VoiceEngine.t) :
  let v' := fst (VoiceEngine._configure_tts_voice v) in
  VoiceEngine.current_voice_mode v' = VoiceEngine.current_voice_mode v
  /\ VoiceEngine.is_listening v' = VoiceEngine.is_listening v
  /\ VoiceEngine.is_speaking v' = VoiceEngine.is_speaking v
  /\ tts_voices (VoiceEngine.tts_engine v') = tts_voices (VoiceEngine.tts_engine v).
Proof.
  unfold VoiceEngine._configure_tts_voice.
  destruct (VOICE_MODES !! _); [|done].
  by destruct (if _ && _ then _ else _).
Qed.

(** C8. Selecting a mode that is not one of Male, Female and Alien leaves
    the voice engine as it is and raises nothing. Selecting one of them makes
    it the current mode and touches nothing of the engine but the voice, rate
    and volume of the synthesiser: the busy flags and the installed voices
    stay. The handler of the selector leaves the assistant (history and
    flag), the circle, the status label, the conversation display, the
    workers and the cycle as they are, for every mode name. *)
Theorem set_voice_mode_touches_only_voice_configuration
  (v : VoiceEngine.t) (mode : pystr) :
  let v' := fst (VoiceEngine.set_voice_mode v mode) in
  (mode ∉ known_modes -> VoiceEngine.set_voice_mode v mode = (v, None))
  /\ (mode ∈ known_modes -> VoiceEngine.current_voice_mode v' = mode)
  /\ VoiceEngine.is_listening v' = VoiceEngine.is_listening v
  /\ VoiceEngine.is_speaking v' = VoiceEngine.is_speaking v
  /\ tts_voices (VoiceEngine.tts_engine v') = tts_voices (VoiceEngine.tts_engine v)
  /\ forall s : VoiceAssistantApp.t,
       let s' := fst (VoiceAssistantApp.on_voice_mode_changed mode s) in
       VoiceAssistantApp.ai_assistant s' = VoiceAssistantApp.ai_assistant s
       /\ VoiceAssistantApp.animated_circle s' = VoiceAssistantApp.animated_circle s
       /\ VoiceAssistantApp.status_label s' = VoiceAssistantApp.status_label s
       /\ VoiceAssistantApp.conversation_display s'
          = VoiceAssistantApp.conversation_display s
       /\ VoiceAssistantApp.threads s' = VoiceAssistantApp.threads s
       /\ VoiceAssistantApp.cycle s' = VoiceAssistantApp.cycle s
       /\ VoiceEngine.is_listening (VoiceAssistantApp.voice_engine s')
          = VoiceEngine.is_listening (VoiceAssistantApp.voice_engine s)
       /\ VoiceEngine.is_speaking (VoiceAssistantApp.voice_engine s')
          = VoiceEngine.is_speaking (VoiceAssistantApp.voice_engine s).
Proof.
  assert (K : forall w : VoiceEngine.t,
    let w' := fst (VoiceEngine.set_voice_mode w mode) in
    VoiceEngine.is_listening w' = VoiceEngine.is_listening w
    /\ VoiceEngine.is_speaking w' = VoiceEngine.is_speaking w
    /\ tts_voices (VoiceEngine.tts_engine w') = tts_voices (VoiceEngine.tts_engine w)).
  { intros w. unfold VoiceEngine.set_voice_mode.
    destruct (VOICE_MODES !! mode); [|done].
    match goal with |- context [VoiceEngine._configure_tts_voice ?x] =>
      destruct (configure_keeps_the_rest x) as (_ & H1 & H2 & H3) end.
    simpl in *. by rewrite H1, H2, H3. }
  intros v'. split; [|split].
  - intros Hm. unfold VoiceEngine.set_voice_mode.
    destruct (VOICE_MODES !! mode) eqn:E; [|done].
    exfalso. apply Hm, VOICE_MODES_known. by eexists.
  - intros Hm. apply VOICE_MODES_known in Hm as [st E].
    subst v'. unfold VoiceEngine.set_voice_mode. rewrite E.
    match goal with |- context [VoiceEngine._configure_tts_voice ?x] =>
      destruct (configure_keeps_the_rest x) as (H0 & _) end.
    by rewrite H0.
  - destruct (K v) as (H1 & H2 & H3). repeat split; try done.
    all: destruct (K (VoiceAssistantApp.voice_engine s)) as (G1 & G2 & _).
    all: unfold VoiceAssistantApp.on_voice_mode_changed.
    all: destruct (VoiceEngine.set_voice_mode (VoiceAssistantApp.voice_engine s) mode)
           as [w [e|]]; simpl in *; done.
Qed.

Lemma set_voice_mode_touches_only_voice_configuration_witness :
  (py "Robot" ∉ known_modes)
  /\ VoiceEngine.set_voice_mode (VoiceEngine.__init__ two_voices) (py "Robot")
     = (VoiceEngine.__init__ two_voices, None)
  /\ (py "Female" ∈ known_modes)
  /\ VoiceEngine.current_voice_mode
       (fst (VoiceEngine.set_voice_mode (VoiceEngine.__init__ two_voices) (py "Female")))
     = py "Female".
Proof.
  assert (Hr : py "Robot" ∉ known_modes).
  { intros H%VOICE_MODES_known. exact (is_Some_None (A:=VoiceSettings) H). }
  assert (Hf : py "Female" ∈ known_modes).
  { apply VOICE_MODES_known. by eexists. }
  split; [exact Hr|]. split.
  - exact (proj1 (set_voice_mode_touches_only_voice_configuration
                    (VoiceEngine.__init__ two_voices) (py "Robot")) Hr).
  - split; [exact Hf|].
    exact (proj1 (proj2 (set_voice_mode_touches_only_voice_configuration
                    (VoiceEngine.__init__ two_voices) (py "Female"))) Hf).
Defined.

Example female_voice :
  VoiceEngine.tts_engine
    (fst (VoiceEngine.set_voice_mode (VoiceEngine.__init__ two_voices) (py "Female")))
  = {| tts_voices := two_voices; tts_voice := Some (py "voice.1");
       tts_rate := Some 180%Z; tts_volume := Some (9 # 10)%Q |}.
Proof. reflexivity. Qed.

(** ** The interaction controller *)

Section Controller.

Import VoiceAssistantApp.

(** *** What the handlers leave alone *)

Lemma speak_thread_text_unbound (v : VoiceEngine.t) :
  VoiceEngine.speak_thread_text v None = Raised UnboundLocalError.
Proof. unfold VoiceEngine.speak_thread_text. by case_bool_decide. Qed.

(** [speak_thread] never gets to play anything: when the voice is
    configured, reading [text] raises. *)
Lemma speak_thread_always_raises (v : VoiceEngine.t) :
  exists e, snd (VoiceEngine.speak_thread_begin v) = Raised e.
Proof.
  unfold VoiceEngine.speak_thread_begin.
  destruct (VoiceEngine._configure_tts_voice _) as [w [e|]]; simpl; [by eexists|].
  rewrite speak_thread_text_unbound. by eexists.
Qed.

Lemma speak_frame (text : pystr) (callback : bool) (s : t) :
  let s' := speak text callback s in
  ai_assistant s' = ai_assistant s
  /\ animated_circle s' = animated_circle s
  /\ status_label s' = status_label s
  /\ status_bar s' = status_bar s
  /\ conversation_display s' = conversation_display s
  /\ threads s' = threads s
  /\ cycle s' = cycle s
  /\ VoiceEngine.is_speaking (voice_engine s') = false
  /\ VoiceEngine.is_listening (voice_engine s')
     = VoiceEngine.is_listening (voice_engine s).
Proof.
  unfold speak.
  destruct (speak_thread_always_raises (voice_engine s)) as [e He].
  pose proof (configure_keeps_the_rest
                (VoiceEngine.set_is_speaking true (voice_engine s))) as (_ & Hl & _).
  unfold VoiceEngine.speak_thread_begin in *.
  destruct (VoiceEngine._configure_tts_voice _) as [w [e'|]]; simpl in *.
  - by repeat split.
  - rewrite speak_thread_text_unbound. by repeat split.
Qed.

Lemma on_ai_response_history (response error : option pystr) (s : t) :
  history (on_ai_response response error s) = history s.
Proof.
  unfold history, on_ai_response.
  destruct error as [[|c e]|], response as [[|d r]|]; try reflexivity.
  all: match goal with |- context [speak ?t ?cb ?x] =>
         destruct (speak_frame t cb x) as (-> & _) end; reflexivity.
Qed.

Lemma on_speech_recognized_history (text error : option pystr) (s : t) :
  history (on_speech_recognized text error s)
  = if truthy_opt error then history s
    else match text with
         | Some t => if truthy t
                     then history s ++ [ {| role := user; content := t |} ]
                     else history s
         | None => history s
         end.
Proof.
  unfold history, on_speech_recognized.
  by destruct error as [[|c e]|], text as [[|d r]|].
Qed.

(** *** C1: the guard of [on_circle_clicked] *)

Lemma click_ignored_while_listening_or_speaking (s : t) :
  VoiceEngine.is_listening (voice_engine s) = true
  \/ VoiceEngine.is_speaking (voice_engine s) = true ->
  on_circle_clicked s = s.
Proof.
  unfold on_circle_clicked. intros [-> | ->]; [done|].
  by rewrite orb_true_r.
Qed.

(** The guard does not read [is_processing]: with the two flags of the voice
    engine down, a click starts a listener, whatever the assistant is
    doing. *)
Lemma click_accepted_while_processing (s : t) :
  VoiceEngine.is_listening (voice_engine s) = false ->
  VoiceEngine.is_speaking (voice_engine s) = false ->
  threads (on_circle_clicked s) = threads s ++ [listen_thread (S (cycle s))]
  /\ ai_assistant (on_circle_clicked s) = ai_assistant s.
Proof. unfold on_circle_clicked. by intros -> ->. Qed.

End Controller.

(** C1, the failing input. A click, then the recogniser returns "hello":
    the controller is processing, with the completion call outstanding and
    the circle showing it. A second click now is not ignored: it starts a
    listener, and two external calls are outstanding. *)
Theorem click_while_processing_starts_second_call :
  exists s s',
    VoiceAssistantApp.run app0 hello_heard = Some s
    /\ busy_state s = Processing
    /\ VoiceAssistantApp.animated_circle s = AnimatedCircle.set_state (py "processing")
    /\ VoiceAssistantApp.threads s = [process_thread 1]
    /\ VoiceAssistantApp.step s circle_clicked = Some s'
    /\ VoiceAssistantApp.threads s' = [process_thread 1; listen_thread 2]
    /\ busy_state s' = Listening
    /\ VoiceAssistantApp.status_label s' = py "Listening... Speak now!".
Proof.
  eexists. eexists. split; [vm_compute; reflexivity|].
  split; [reflexivity|]. split; [reflexivity|]. split; [reflexivity|].
  split; [vm_compute; reflexivity|]. by repeat split.
Qed.

(** C2, the failing input. A whole exchange: click, "hello" heard, the
    completion service replies. [speak] is called and its thread is over at
    once, without a callback and without a message to the user: no worker is
    left that could ever call back, and the window still shows the circle in
    its processing state under "Speaking response...". *)
Theorem reply_leaves_presentation_busy :
  exists s,
    VoiceAssistantApp.run app0
      (hello_heard ++ [completion_returns 0 (Reply (py "hi there"))]) = Some s
    /\ VoiceAssistantApp.threads s = []
    /\ busy_state s = Idle
    /\ VoiceAssistantApp.animated_circle s = AnimatedCircle.set_state (py "processing")
    /\ shown_idle s = false
    /\ VoiceAssistantApp.status_label s = py "Speaking response..."
    /\ VoiceAssistantApp.status_bar s = py "Playing AI response...".
Proof.
  eexists. split; [vm_compute; reflexivity|]. by repeat split.
Qed.

Section Callbacks.

Import VoiceAssistantApp.

(** Had [speak_thread] got as far as playing, a failure of the synthesiser
    would still only be printed: no callback, nothing shown. *)
Lemma speak_error_is_silent (callback : bool) (s : t) :
  let s' := speak_thread_returns callback SpeakError s in
  animated_circle s' = animated_circle s
  /\ status_label s' = status_label s
  /\ status_bar s' = status_bar s.
Proof. by repeat split. Qed.

(** [stop_speaking] lowers the flag of the voice engine and nothing else:
    what the window shows is left as it is. *)
Lemma stop_speaking_only_lowers_flag (s : t) :
  let s' := closeEvent s in
  VoiceEngine.is_speaking (voice_engine s') = false
  /\ animated_circle s' = animated_circle s
  /\ status_label s' = status_label s
  /\ status_bar s' = status_bar s
  /\ threads s' = threads s
  /\ history s' = history s.
Proof. by repeat split. Qed.

Lemma count_role_app (r : Role) (h1 h2 : list Message) :
  count_role r (h1 ++ h2) = count_role r h1 + count_role r h2.
Proof. unfold count_role. by rewrite filter_app, length_app. Qed.

Lemma count_role_cons_le (r : Role) (m : Message) (h : list Message) :
  count_role r [m] <= count_role r (m :: h).
Proof.
  change (m :: h) with ([m] ++ h). rewrite count_role_app. lia.
Qed.

Lemma count_assistant_user (t : pystr) :
  count_role assistant [ {| role := user; content := t |} ] = 0.
Proof. reflexivity. Qed.

Lemma process_thread_returns_error (e : pystr) (s : t) :
  let s' := process_thread_returns (CompletionError e) s in
  history s' = history s
  /\ AIAssistant.is_processing (ai_assistant s') = false
  /\ animated_circle s' = AnimatedCircle.set_state (py "idle")
  /\ status_label s' = py "AI Error: " ++ py "AI Error: " ++ e
  /\ status_bar s' = py "Ready"
  /\ conversation_display s' = conversation_display s
  /\ threads s' = threads s.
Proof. by repeat split. Qed.

Lemma process_thread_returns_reply (content : pystr) (s : t) :
  history (process_thread_returns (Reply content) s)
  = AIAssistant.trim
      (history s ++ [ {| role := assistant; content := strip content |} ]).
Proof.
  unfold process_thread_returns. cbn [AIAssistant.process_thread_result fst snd].
  match goal with |- history (with_ai_assistant _ ?x) = _ =>
    change (history x = AIAssistant.trim
      (history s ++ [ {| role := assistant; content := strip content |} ])) end.
  by rewrite on_ai_response_history.
Qed.

Lemma process_thread_returns_reply_shown (content : pystr) (s : t) :
  strip content <> [] ->
  let s' := process_thread_returns (Reply content) s in
  status_label s' = py "Speaking response..."
  /\ status_bar s' = py "Playing AI response..."
  /\ animated_circle s' = animated_circle s
  /\ threads s' = threads s.
Proof.
  intros Hne. unfold process_thread_returns.
  cbn [AIAssistant.process_thread_result fst snd]. unfold on_ai_response.
  destruct (strip content) as [|c r]; [done|].
  match goal with |- context [speak ?t ?cb ?x] =>
    destruct (speak_frame t cb x) as (_ & Hc & Hl & Hb & _ & Ht & _) end.
  simpl. by rewrite Hl, Hb, Hc, Ht.
Qed.

(** Only the return of a reply adds an assistant message. *)
Lemma assistant_only_after_reply (s s' : t) (ev : event) :
  step s ev = Some s' ->
  count_role assistant (history s) < count_role assistant (history s') ->
  exists i c content,
    ev = completion_returns i (Reply content)
    /\ threads s !! i = Some (process_thread c).
Proof.
  intros Hstep Hlt. destruct ev as [| mode | | | i r | i r | i r]; simpl in Hstep.
  - injection Hstep as <-. exfalso. revert Hlt. unfold on_circle_clicked.
    destruct (_ || _); [lia|]. unfold history. simpl. lia.
  - exfalso. unfold on_voice_mode_changed in Hstep. simpl in Hstep.
    destruct (VoiceEngine.set_voice_mode _ _) as [w [e|]]; [done|].
    injection Hstep as <-. unfold history in Hlt. simpl in Hlt. lia.
  - exfalso. unfold clear_conversation, AIAssistant.clear_conversation in Hstep.
    simpl in Hstep. unfold history in Hlt.
    destruct (AIAssistant.conversation_history (ai_assistant s)) as [|m0 h];
      [done|].
    injection Hstep as <-. simpl in Hlt.
    pose proof (count_role_cons_le assistant m0 h). lia.
  - injection Hstep as <-. exfalso. unfold test_tts, history in Hlt. simpl in Hlt.
    match type of Hlt with context [speak ?t ?cb ?x] =>
      destruct (speak_frame t cb x) as (E & _) end.
    rewrite E in Hlt. lia.
  - exfalso. destruct (threads s !! i) as [[c|c|c t0 cb]|]; try done.
    injection Hstep as <-. revert Hlt.
    unfold listen_thread_returns.
    match goal with |- context [with_voice_engine ?v ?x] =>
      change (history (with_voice_engine v x)) with (history x) end.
    destruct r; rewrite ?on_speech_recognized_history; simpl;
      try (unfold history; simpl; lia).
    destruct (truthy text); unfold history; simpl; [|lia].
    rewrite count_role_app, count_assistant_user. lia.
  - destruct (threads s !! i) as [[c|c|c t0 cb]|] eqn:E; try done.
    destruct r as [content|e]; [by exists i, c, content|].
    exfalso. injection Hstep as <-. unfold history in Hlt. simpl in Hlt. lia.
  - exfalso. destruct (threads s !! i) as [[c|c|c t0 cb]|]; try done.
    injection Hstep as <-. revert Hlt. unfold speak_thread_returns, history.
    destruct r, cb; simpl; lia.
Qed.

End Callbacks.

(** C7. When the completion call fails, the controller shows the error and
    the idle circle, lowers [is_processing] and leaves the history as the
    call found it: the user message that [get_response] appended when the
    text was recognised is still its last entry, and no assistant message is
    added. An assistant message is added by no event but the return of a
    successful completion call. *)
Theorem failed_completion_keeps_user_message
  (s : VoiceAssistantApp.t) (text e : pystr) :
  text <> [] ->
  let s1 := VoiceAssistantApp.on_speech_recognized (Some text) None s in
  let i := length (VoiceAssistantApp.threads s) in
  history s1 = history s ++ [ {| role := user; content := text |} ]
  /\ VoiceAssistantApp.threads s1 !! i
     = Some (process_thread (VoiceAssistantApp.cycle s))
  /\ (exists s2,
        VoiceAssistantApp.step s1 (completion_returns i (CompletionError e)) = Some s2
        /\ history s2 = history s ++ [ {| role := user; content := text |} ]
        /\ count_role assistant (history s2) = count_role assistant (history s)
        /\ AIAssistant.is_processing (VoiceAssistantApp.ai_assistant s2) = false
        /\ VoiceAssistantApp.animated_circle s2 = AnimatedCircle.set_state (py "idle")
        /\ VoiceAssistantApp.status_label s2 = py "AI Error: " ++ py "AI Error: " ++ e
        /\ VoiceAssistantApp.status_bar s2 = py "Ready")
  /\ (forall (t t' : VoiceAssistantApp.t) (ev : event),
        VoiceAssistantApp.step t ev = Some t' ->
        count_role assistant (history t) < count_role assistant (history t') ->
        exists j c content,
          ev = completion_returns j (Reply content)
          /\ VoiceAssistantApp.threads t !! j = Some (process_thread c)).
Proof.
  intros Hne s1 i.
  assert (H1 : history s1 = history s ++ [ {| role := user; content := text |} ]).
  { subst s1. rewrite on_speech_recognized_history. simpl.
    by destruct text. }
  assert (H2 : VoiceAssistantApp.threads s1 !! i
               = Some (process_thread (VoiceAssistantApp.cycle s))).
  { subst s1 i. destruct text as [|c text]; [done|]. simpl.
    by rewrite lookup_app_r, Nat.sub_diag. }
  split; [exact H1|]. split; [exact H2|]. split.
  - eexists. split.
    + simpl. rewrite H2. reflexivity.
    + destruct (process_thread_returns_error e
                  (VoiceAssistantApp.with_threads
                     (delete i (VoiceAssistantApp.threads s1)) s1))
        as (Hh & Hp & Hc & Hl & Hb & _).
      split; [by rewrite Hh|]. split.
      { rewrite Hh. change (history (VoiceAssistantApp.with_threads _ s1))
          with (history s1).
        rewrite H1, count_role_app, count_assistant_user. lia. }
      by repeat split.
  - intros t t' ev. apply assistant_only_after_reply.
Qed.

Lemma failed_completion_keeps_user_message_witness :
  py "hello" <> []
  /\ (exists s2,
       VoiceAssistantApp.step
         (VoiceAssistantApp.on_speech_recognized (Some (py "hello")) None app0)
         (completion_returns 0 (CompletionError (py "Connection error."))) = Some s2
       /\ history s2 = history app0 ++ [ {| role := user; content := py "hello" |} ]
       /\ VoiceAssistantApp.animated_circle s2 = AnimatedCircle.set_state (py "idle"))
  /\ exists t t',
       VoiceAssistantApp.run app0 hello_heard = Some t
       /\ VoiceAssistantApp.step t (completion_returns 0 (Reply (py "hi there")))
          = Some t'
       /\ count_role assistant (history t) < count_role assistant (history t')
       /\ exists j c content,
            completion_returns 0 (Reply (py "hi there"))
            = completion_returns j (Reply content)
            /\ VoiceAssistantApp.threads t !! j = Some (process_thread c).
Proof.
  assert (Hne : py "hello" <> []) by discriminate.
  split; [exact Hne|].
  destruct (failed_completion_keeps_user_message app0 (py "hello")
              (py "Connection error.") Hne)
    as (_ & _ & (s2 & Hs & Hh & _ & _ & Hc & _) & Honly).
  split.
  - exists s2. split; [exact Hs|]. split; [exact Hh|exact Hc].
  - eexists. eexists. split; [vm_compute; reflexivity|].
    split; [vm_compute; reflexivity|].
    split; [vm_compute; lia|].
    eapply Honly; [vm_compute; reflexivity|vm_compute; lia].
Defined.

(** *** C9: callbacks and cycles *)

(** C9, as stated, fails. In the second cycle the completion call of the
    first cycle is still outstanding; when it returns, its callback is
    applied: the history gets the assistant message and the window turns
    to "Speaking response...". *)
Lemma stale_completion_is_applied :
  exists s s',
    VoiceAssistantApp.run app0 second_cycle_begun = Some s
    /\ VoiceAssistantApp.cycle s = 2
    /\ VoiceAssistantApp.threads s !! 0 = Some (process_thread 1)
    /\ 1 < VoiceAssistantApp.cycle s
    /\ VoiceAssistantApp.step s (completion_returns 0 (Reply (py "hi there"))) = Some s'
    /\ history s' = history s ++ [ {| role := assistant; content := py "hi there" |} ]
    /\ history s' <> history s
    /\ VoiceAssistantApp.status_label s = py "Listening... Speak now!"
    /\ VoiceAssistantApp.status_label s' = py "Speaking response..."
    /\ VoiceAssistantApp.status_label s' <> VoiceAssistantApp.status_label s.
Proof.
  eexists. eexists. split; [vm_compute; reflexivity|].
  split; [reflexivity|]. split; [reflexivity|]. split; [vm_compute; lia|].
  split; [vm_compute; reflexivity|].
  split; [reflexivity|]. split; [by vm_compute|].
  split; [reflexivity|]. split; [reflexivity|]. by vm_compute.
Qed.

Section Cycles.

Import VoiceAssistantApp.

Lemma delete_alter_same {A} (f : A -> A) (l : list A) (i : nat) :
  delete i (alter f i l) = delete i l.
Proof.
  revert i; induction l as [|x l IH]; intros [|i]; simpl; try done.
  by rewrite IH.
Qed.

Lemma retag_lookup (i c : nat) (s : t) :
  threads (retag i c s) !! i = set_worker_cycle c <$> threads s !! i.
Proof. unfold retag. simpl. apply list_lookup_alter_eq. Qed.

Lemma retag_delete (i c : nat) (s : t) :
  with_threads (delete i (threads (retag i c s))) (retag i c s)
  = with_threads (delete i (threads s)) s.
Proof. unfold retag, with_threads. simpl. by rewrite delete_alter_same. Qed.

End Cycles.

(** C9, amended. Nothing tags a call with a cycle and no callback is
    discarded: the return of a worker has the same effect whatever cycle the
    worker was started in. So the reply of a completion call, of the current
    cycle or of an older one, appends the assistant message and trims; and
    [on_speech_complete] shows the idle state whenever it is called, without
    touching the history. *)
Theorem callbacks_applied_whatever_the_cycle
  (s : VoiceAssistantApp.t) (i c : nat) :
  (forall r, VoiceAssistantApp.step (retag i c s) (listen_returns i r)
             = VoiceAssistantApp.step s (listen_returns i r))
  /\ (forall r, VoiceAssistantApp.step (retag i c s) (completion_returns i r)
                = VoiceAssistantApp.step s (completion_returns i r))
  /\ (forall r, VoiceAssistantApp.step (retag i c s) (speak_returns i r)
                = VoiceAssistantApp.step s (speak_returns i r))
  /\ (forall content,
        VoiceAssistantApp.threads s !! i = Some (process_thread c) ->
        exists s',
          VoiceAssistantApp.step s (completion_returns i (Reply content)) = Some s'
          /\ history s'
             = AIAssistant.trim
                 (history s ++ [ {| role := assistant; content := strip content |} ])
          /\ (strip content <> [] ->
              VoiceAssistantApp.status_label s' = py "Speaking response..."))
  /\ history (VoiceAssistantApp.on_speech_complete s) = history s
  /\ VoiceAssistantApp.animated_circle (VoiceAssistantApp.on_speech_complete s)
     = AnimatedCircle.set_state (py "idle").
Proof.
  split; [|split; [|split; [|split]]].
  - intros r. unfold VoiceAssistantApp.step.
    rewrite retag_lookup, retag_delete.
    by destruct (VoiceAssistantApp.threads s !! i) as [[]|].
  - intros r. unfold VoiceAssistantApp.step.
    rewrite retag_lookup, retag_delete.
    by destruct (VoiceAssistantApp.threads s !! i) as [[]|].
  - intros r. unfold VoiceAssistantApp.step.
    rewrite retag_lookup, retag_delete.
    by destruct (VoiceAssistantApp.threads s !! i) as [[]|].
  - intros content Hw. eexists. split; [|split].
    + simpl. rewrite Hw. reflexivity.
    + by rewrite process_thread_returns_reply.
    + intros Hne.
      by destruct (process_thread_returns_reply_shown content
                     (VoiceAssistantApp.with_threads
                        (delete i (VoiceAssistantApp.threads s)) s) Hne) as [-> _].
  - by split.
Qed.

Lemma callbacks_applied_whatever_the_cycle_witness :
  exists s,
    VoiceAssistantApp.run app0 second_cycle_begun = Some s
    /\ VoiceAssistantApp.threads s !! 0 = Some (process_thread 1)
    /\ strip (py "hi there") <> []
    /\ exists s',
         VoiceAssistantApp.step s (completion_returns 0 (Reply (py "hi there")))
         = Some s'
         /\ history s'
            = AIAssistant.trim
                (history s
                 ++ [ {| role := assistant; content := strip (py "hi there") |} ])
         /\ VoiceAssistantApp.status_label s' = py "Speaking response...".
Proof.
  eexists. split; [vm_compute; reflexivity|].
  split; [reflexivity|].
  assert (Hne : strip (py "hi there") <> []) by (vm_compute; discriminate).
  split; [exact Hne|].
  match goal with |- exists s', VoiceAssistantApp.step ?s _ = _ /\ _ =>
    destruct (proj1 (proj2 (proj2 (proj2
                (callbacks_applied_whatever_the_cycle s 0 1))))
                (py "hi there") eq_refl) as (s' & Hs & Hh & Hl) end.
  exists s'. split; [exact Hs|]. split; [exact Hh|exact (Hl Hne)].
Defined.

(** ** What holds in every state the window can reach *)

Section Reachable.

Import VoiceAssistantApp.

Lemma speak_invariant (text : pystr) (callback : bool) (s : t) :
  app_invariant s -> app_invariant (speak text callback s).
Proof.
  intros [Hw Hh]. destruct (speak_frame text callback s) as (Ha & _ & _ & _ & _ & Ht & _).
  unfold app_invariant, history. by rewrite Ha, Ht.
Qed.

Lemma spawn_invariant (w : worker) (s : t) :
  is_speak_thread w = false -> app_invariant s -> app_invariant (spawn w s).
Proof.
  intros Hw [Ht Hh]. split; [|exact Hh].
  simpl. apply Forall_app. split; [exact Ht|by constructor].
Qed.

Lemma on_ai_response_invariant (response error : option pystr) (s : t) :
  app_invariant s -> app_invariant (on_ai_response response error s).
Proof.
  intros H. unfold on_ai_response.
  destruct error as [[|c e]|], response as [[|d r]|]; try exact H.
  all: first [ by apply speak_invariant | exact H ].
Qed.

Lemma trim_head (m0 : Message) (rest : list Message) :
  exists rest', AIAssistant.trim (m0 :: rest) = m0 :: rest'.
Proof.
  destruct (trim_evicts_front m0 rest) as (ev & kept & _ & E & _). by exists kept.
Qed.

Lemma step_invariant (s s' : t) (ev : event) :
  app_invariant s -> step s ev = Some s' -> app_invariant s'.
Proof.
  intros [Ht [rest Hh]] Hstep.
  assert (I : app_invariant s) by (split; [done|by exists rest]).
  destruct ev as [| mode | | | i r | i r | i r]; simpl in Hstep.
  - injection Hstep as <-. unfold on_circle_clicked.
    destruct (_ || _); [exact I|]. by apply spawn_invariant.
  - unfold on_voice_mode_changed in Hstep. simpl in Hstep.
    destruct (VoiceEngine.set_voice_mode _ _) as [w [e|]]; [done|].
    by injection Hstep as <-.
  - unfold clear_conversation, AIAssistant.clear_conversation in Hstep.
    simpl in Hstep. unfold history in Hh. rewrite Hh in Hstep.
    injection Hstep as <-. split; [exact Ht|]. by exists [].
  - injection Hstep as <-. unfold test_tts.
    by destruct (speak_invariant
                   (py "Testing " ++ voice_selector s
                    ++ py " voice mode. Hello, I am ARIA, your futuristic voice assistant.")
                   false s I).
  - destruct (threads s !! i) as [[c|c|c t0 cb]|]; try done.
    injection Hstep as <-.
    assert (I' : app_invariant (with_threads (delete i (threads s)) s)).
    { split; [by apply Forall_delete|by exists rest]. }
    unfold listen_thread_returns.
    assert (K : forall text error,
      app_invariant (on_speech_recognized text error
                       (with_threads (delete i (threads s)) s))).
    { intros text error. unfold on_speech_recognized.
      destruct error as [[|x e]|], text as [[|d u]|]; try exact I'.
      all: apply spawn_invariant; [done|].
      all: split; [by apply Forall_delete|].
      all: unfold history; simpl; unfold history in Hh; rewrite Hh; by eexists. }
    by destruct r; first [ destruct (K (Some text) None)
                         | destruct (K None (Some (py "Listening timeout")))
                         | destruct (K None (Some (py "Could not understand audio")))
                         | destruct (K None (Some (py "Could not request results; " ++ e)))
                         | destruct I' ].
  - destruct (threads s !! i) as [[c|c|c t0 cb]|]; try done.
    injection Hstep as <-.
    assert (I' : forall a rest',
      AIAssistant.conversation_history a
      = {| role := system; content := SYSTEM_PROMPT |} :: rest' ->
      app_invariant (with_ai_assistant a (with_threads (delete i (threads s)) s))).
    { intros a rest' Ha. split; [by apply Forall_delete|by exists rest']. }
    unfold process_thread_returns. unfold history in Hh.
    destruct r as [content|e]; cbn [AIAssistant.process_thread_result fst snd].
    + destruct (trim_head {| role := system; content := SYSTEM_PROMPT |}
                  (rest ++ [ {| role := assistant; content := strip content |} ]))
        as [rest' Hr].
      match goal with |- context [on_ai_response ?x ?y ?z] =>
        destruct (on_ai_response_invariant x y z) as [G1 G2] end.
      { eapply (I' _ rest'). simpl. unfold AIAssistant.append. rewrite Hh. exact Hr. }
      by split.
    + match goal with |- context [on_ai_response ?x ?y ?z] =>
        destruct (on_ai_response_invariant x y z) as [G1 G2] end.
      { by eapply (I' _ rest). }
      by split.
  - destruct (threads s !! i) as [[c|c|c t0 cb]|] eqn:E; try done.
    apply list_elem_of_lookup_2 in E.
    rewrite Forall_forall in Ht. by apply Ht in E.
Qed.

(** In the window, no thread ever plays speech, and the history always
    begins with the system message. *)
Lemma run_invariant (evs : list event) :
  forall s s', app_invariant s -> run s evs = Some s' -> app_invariant s'.
Proof.
  induction evs as [|ev evs IH]; intros s s' I Hrun; simpl in Hrun.
  - by injection Hrun as <-.
  - destruct (step s ev) as [s1|] eqn:E; [|done].
    eapply IH; [|exact Hrun]. by eapply step_invariant.
Qed.

Lemma init_invariant (installed : list Voice) : app_invariant (__init__ installed).
Proof. split; [constructor|by exists []]. Qed.

(** The Clear button, in any state the window can reach: the handler does
    not raise, and leaves the system message alone in the history. *)
Lemma clear_button_leaves_system_message
  (installed : list Voice) (evs : list event) (s : t) :
  run (__init__ installed) evs = Some s ->
  exists s',
    step s clear_button_clicked = Some s'
    /\ history s' = [ {| role := system; content := SYSTEM_PROMPT |} ]
    /\ conversation_display s' = [].
Proof.
  intros Hrun.
  destruct (run_invariant evs _ _ (init_invariant installed) Hrun) as [_ [rest Hh]].
  unfold step, clear_conversation, AIAssistant.clear_conversation. simpl.
  unfold history in Hh. rewrite Hh. eexists. by split.
Qed.

End Reachable.

(** * Further properties *)

(** ** More on the history *)

Section Trim.

Import AIAssistant.

(** Both branches of [trim] at once. *)
Lemma trim_cons (m0 : Message) (rest : list Message) :
  trim (m0 :: rest) = m0 :: drop (length rest - 20) rest.
Proof.
  destruct (Nat.le_gt_cases (length rest) 20) as [H|H].
  - rewrite trim_within by (simpl; lia).
    by replace (length rest - 20) with 0 by lia.
  - by destruct (trim_over m0 rest) as [-> _].
Qed.

Lemma last_drop_lt {A} (l : list A) (k : nat) :
  k < length l -> last (drop k l) = last l.
Proof.
  intros H. rewrite !last_lookup, lookup_drop, length_drop.
  f_equal. lia.
Qed.

Lemma last_cons_ne {A} (x : A) (l : list A) : l <> [] -> last (x :: l) = last l.
Proof. by destruct l. Qed.

Lemma trim_last (h : list Message) : last (trim h) = last h.
Proof.
  destruct h as [|m0 rest]; [done|]. rewrite trim_cons.
  destruct rest as [|m1 rest]; [done|].
  assert (K : length (m1 :: rest) - 20 < length (m1 :: rest)) by (simpl; lia).
  rewrite (last_cons_ne m0 (m1 :: rest)) by done.
  rewrite (last_cons_ne m0 (drop _ _)).
  - by apply last_drop_lt.
  - intros E. apply (f_equal length) in E. rewrite length_drop in E.
    simpl in *. lia.
Qed.

(** [trim] keeps the end of the history: what is appended last is never
    what is evicted. *)
Lemma trim_app_two (h : list Message) (x y : Message) :
  exists pre, trim (h ++ [x; y]) = pre ++ [x; y].
Proof.
  destruct h as [|m0 rest].
  - exists []. by rewrite trim_within by (simpl; lia).
  - simpl. rewrite trim_cons, length_app. simpl.
    destruct (Nat.le_gt_cases (length rest + 2 - 20) (length rest)) as [H|H].
    + rewrite drop_app_le by done. by exists (m0 :: drop (length rest + 2 - 20) rest).
    + lia.
Qed.

End Trim.

(** X1. Trimming a trimmed history changes nothing, and trimming never
    touches the last entry of the history. *)
Theorem trim_idempotent_keeps_last (h : list Message) :
  AIAssistant.trim (AIAssistant.trim h) = AIAssistant.trim h
  /\ last (AIAssistant.trim h) = last h
  /\ length (AIAssistant.trim h) <= 21.
Proof.
  assert (L : length (AIAssistant.trim h) <= 21) by (rewrite length_trim; lia).
  split; [by apply trim_within|]. split; [apply trim_last|exact L].
Qed.

(** *** Whole exchanges and the summary *)

Section Exchanges.

Import AIAssistant.

Lemma history_successful_exchange (a : t) (qa : pystr * pystr) :
  conversation_history (successful_exchange a qa)
  = trim (conversation_history a ++ exchange_messages qa).
Proof.
  unfold successful_exchange, exchange_messages. simpl. unfold append.
  by rewrite <- app_assoc.
Qed.

Lemma history_failed_call (a : t) (question e : pystr) :
  conversation_history (failed_call a question e)
  = conversation_history a ++ [ {| role := user; content := question |} ].
Proof. reflexivity. Qed.

Lemma length_exchange_messages (l : list (pystr * pystr)) :
  length (flat_map exchange_messages l) = 2 * length l.
Proof. induction l as [|qa l IH]; simpl; [done|]. rewrite IH. lia. Qed.

Lemma drop_exchange_messages (k : nat) (l : list (pystr * pystr)) :
  drop (2 * k) (flat_map exchange_messages l)
  = flat_map exchange_messages (drop k l).
Proof.
  revert l; induction k as [|k IH]; intros l; [done|].
  destruct l as [|qa l]; [done|].
  replace (2 * S k) with (S (S (2 * k))) by lia. simpl. apply IH.
Qed.

Lemma users_of_exchanges (l : list (pystr * pystr)) :
  content <$> filter (fun msg => role msg = user) (flat_map exchange_messages l)
  = fst <$> l.
Proof.
  induction l as [|qa l IH]; [reflexivity|].
  cbn [flat_map exchange_messages app].
  rewrite filter_cons_True by (cbn; congruence).
  rewrite filter_cons_False by (cbn; congruence).
  rewrite !fmap_cons. cbn [content]. by rewrite IH.
Qed.

Lemma assistants_of_exchanges (l : list (pystr * pystr)) :
  content <$> filter (fun msg => role msg = assistant) (flat_map exchange_messages l)
  = (fun qa => strip (snd qa)) <$> l.
Proof.
  induction l as [|qa l IH]; [reflexivity|].
  cbn [flat_map exchange_messages app].
  rewrite filter_cons_False by (cbn; congruence).
  rewrite filter_cons_True by (cbn; congruence).
  rewrite !fmap_cons. cbn [content]. by rewrite IH.
Qed.

(** The history after exchanges that all succeed, on a fresh assistant. *)
Lemma history_successful_exchanges (qas : list (pystr * pystr)) :
  conversation_history (successful_exchanges __init__ qas)
  = {| role := system; content := SYSTEM_PROMPT |}
    :: flat_map exchange_messages (drop (length qas - 10) qas).
Proof.
  induction qas as [|qa qas IH] using rev_ind; [done|].
  unfold successful_exchanges in *. rewrite foldl_app. cbn [foldl].
  rewrite history_successful_exchange, IH.
  rewrite <- app_comm_cons, trim_cons. f_equal.
  set (d := drop (length qas - 10) qas).
  assert (Hd : length d = length qas `min` 10) by (unfold d; rewrite length_drop; lia).
  change (exchange_messages qa) with (flat_map exchange_messages [qa] ++ []).
  rewrite app_nil_r, <- flat_map_app, length_exchange_messages, length_app.
  simpl length.
  replace (2 * (length d + 1) - 20) with (2 * (length d + 1 - 10)) by lia.
  rewrite drop_exchange_messages. f_equal.
  unfold d. rewrite <- drop_app_le by lia.
  rewrite drop_drop, length_app, length_drop. simpl. f_equal. lia.
Qed.

Lemma filter_user_pair (q r : pystr) :
  filter (fun msg => role msg = user)
    [ {| role := user; content := q |}; {| role := assistant; content := r |} ]
  = [ {| role := user; content := q |} ].
Proof. reflexivity. Qed.

Lemma filter_assistant_pair (q r : pystr) :
  filter (fun msg => role msg = assistant)
    [ {| role := user; content := q |}; {| role := assistant; content := r |} ]
  = [ {| role := assistant; content := r |} ].
Proof. reflexivity. Qed.

Lemma filter_user_single (q : pystr) :
  filter (fun msg => role msg = user) [ {| role := user; content := q |} ]
  = [ {| role := user; content := q |} ]
  /\ filter (fun msg => role msg = assistant) [ {| role := user; content := q |} ]
     = [].
Proof. by split. Qed.

End Exchanges.

(** X2. On a fresh assistant, after any number of calls of [get_response]
    that all succeed, the history is the system message followed by the
    messages of the last ten exchanges, in order, and the summary counts
    that many exchanges: all of them up to ten, ten from then on. *)
Theorem history_is_last_ten_exchanges (qas : list (pystr * pystr)) :
  let a := successful_exchanges AIAssistant.__init__ qas in
  AIAssistant.conversation_history a
  = {| role := system; content := SYSTEM_PROMPT |}
    :: flat_map exchange_messages (drop (length qas - 10) qas)
  /\ AIAssistant.total_exchanges (AIAssistant.get_conversation_summary a)
     = length qas `min` 10
  /\ AIAssistant.last_user_message (AIAssistant.get_conversation_summary a)
     = fst <$> last qas
  /\ AIAssistant.last_assistant_message (AIAssistant.get_conversation_summary a)
     = (fun qa => strip (snd qa)) <$> last qas.
Proof.
  intros a. pose proof (history_successful_exchanges qas) as H. fold a in H.
  split; [exact H|].
  unfold AIAssistant.get_conversation_summary. rewrite H.
  cbn [AIAssistant.total_exchanges AIAssistant.last_user_message
       AIAssistant.last_assistant_message].
  rewrite !filter_cons_False by (cbn; congruence).
  rewrite users_of_exchanges, assistants_of_exchanges.
  assert (L : last (drop (length qas - 10) qas) = last qas).
  { destruct qas as [|qa qas]; [done|]. apply last_drop_lt. simpl. lia. }
  rewrite length_fmap, length_drop, !fmap_last, L.
  split; [lia|done].
Qed.

(** X3. After a call of [get_response] that succeeds, in whatever state the
    assistant was, the summary names the question just asked and the reply
    just given (stripped) as the last messages. *)
Theorem summary_after_reply (a : AIAssistant.t) (question reply : pystr) :
  let s := AIAssistant.get_conversation_summary
             (successful_exchange a (question, reply)) in
  AIAssistant.last_user_message s = Some question
  /\ AIAssistant.last_assistant_message s = Some (strip reply)
  /\ 1 <= AIAssistant.total_exchanges s.
Proof.
  intros s. subst s. unfold AIAssistant.get_conversation_summary.
  rewrite history_successful_exchange. unfold exchange_messages. cbn [fst snd].
  destruct (trim_app_two (AIAssistant.conversation_history a)
              {| role := user; content := question |}
              {| role := assistant; content := strip reply |}) as [pre ->].
  cbn [AIAssistant.total_exchanges AIAssistant.last_user_message
       AIAssistant.last_assistant_message].
  rewrite !filter_app, filter_user_pair, filter_assistant_pair.
  rewrite !fmap_app, !length_app. cbn [fmap list_fmap content length].
  rewrite !last_snoc. repeat split. lia.
Qed.

(** X4. After a call of [get_response] whose completion call fails, the
    summary counts one exchange more than before and names the unanswered
    question as the last user message; the last assistant message is the one
    of before. *)
Theorem summary_counts_unanswered_question
  (a : AIAssistant.t) (question e : pystr) :
  let before := AIAssistant.get_conversation_summary a in
  let after := AIAssistant.get_conversation_summary (failed_call a question e) in
  AIAssistant.total_exchanges after = S (AIAssistant.total_exchanges before)
  /\ AIAssistant.last_user_message after = Some question
  /\ AIAssistant.last_assistant_message after
     = AIAssistant.last_assistant_message before
  /\ AIAssistant.is_processing (failed_call a question e) = false.
Proof.
  intros before after. subst before after.
  unfold AIAssistant.get_conversation_summary.
  rewrite history_failed_call, !filter_app.
  destruct (filter_user_single question) as [-> ->].
  cbn [AIAssistant.total_exchanges AIAssistant.last_user_message
       AIAssistant.last_assistant_message].
  rewrite app_nil_r, fmap_app, length_app. cbn [fmap list_fmap content length].
  rewrite last_snoc. repeat split. lia.
Qed.

(** X5. Whatever was done to the history before, after [clear_conversation]
    the summary reports no exchange and no last message. *)
Theorem summary_after_clear (ops : list store_op) :
  exists a a',
    run_store_ops AIAssistant.__init__ ops = Returned a
    /\ AIAssistant.clear_conversation a = Returned a'
    /\ AIAssistant.get_conversation_summary a'
       = {| AIAssistant.total_exchanges := 0;
            AIAssistant.last_user_message := None;
            AIAssistant.last_assistant_message := None |}.
Proof.
  destruct (store_ops_keep_first ops AIAssistant.__init__
              {| role := system; content := SYSTEM_PROMPT |} [])
    as (a & rest & Hr & Hh); [reflexivity|].
  simpl in Hh. exists a. eexists. split; [exact Hr|].
  unfold AIAssistant.clear_conversation. rewrite Hh. split; [reflexivity|].
  reflexivity.
Qed.

(** ** More on the voice engine *)

Section Voice.

Import VoiceEngine.

Lemma set_voice_mode_keeps_flags (v : t) (mode : pystr) :
  let v' := fst (set_voice_mode v mode) in
  is_listening v' = is_listening v
  /\ is_speaking v' = is_speaking v
  /\ tts_voices (tts_engine v') = tts_voices (tts_engine v).
Proof.
  unfold set_voice_mode. destruct (VOICE_MODES !! mode); [|done].
  match goal with |- context [_configure_tts_voice ?x] =>
    destruct (configure_keeps_the_rest x) as (_ & H1 & H2 & H3) end.
  simpl in *. by rewrite H1, H2, H3.
Qed.

Lemma set_voice_mode_current (v : t) (mode : pystr) :
  current_voice_mode (fst (set_voice_mode v mode))
  = if bool_decide (mode ∈ known_modes) then mode else current_voice_mode v.
Proof.
  unfold set_voice_mode. case_bool_decide as Hm.
  - apply VOICE_MODES_known in Hm as [st ->].
    match goal with |- context [_configure_tts_voice ?x] =>
      destruct (configure_keeps_the_rest x) as (H0 & _) end.
    by rewrite H0.
  - destruct (VOICE_MODES !! mode) eqn:E; [|done].
    exfalso. apply Hm, VOICE_MODES_known. by eexists.
Qed.

(** With a voice installed and a known current mode, the configuration
    succeeds, and what it leaves does not depend on the properties of
    before. *)
Lemma configure_with_voices (v : t) (st : VoiceSettings) (v0 : Voice) (vs : list Voice) :
  VOICE_MODES !! current_voice_mode v = Some st ->
  tts_voices (tts_engine v) = v0 :: vs ->
  _configure_tts_voice v
  = ({| tts_engine :=
          {| tts_voices := v0 :: vs;
             tts_voice :=
               Some (voice_id
                       (match vs with
                        | v1 :: _ =>
                            if bool_decide (current_voice_mode v = py "Female")
                            then v1 else v0
                        | [] => v0
                        end));
             tts_rate := Some (rate st);
             tts_volume := Some (9 # 10)%Q |};
        current_voice_mode := current_voice_mode v;
        is_listening := is_listening v;
        is_speaking := is_speaking v |}, None).
Proof.
  intros Hst Hv. unfold _configure_tts_voice. rewrite Hst, Hv.
  destruct vs as [|v1 vs]; simpl.
  - by rewrite andb_false_r.
  - rewrite andb_true_r. by case_bool_decide.
Qed.

End Voice.

(** X6. After any calls of [set_voice_mode], with any names, the current
    mode is the last of the names given that is a key of [VOICE_MODES], or
    Male when there was none; so it is always a key, and
    [_configure_tts_voice] never fails on the look-up of the mode. *)
Theorem current_mode_is_last_known_mode (installed : list Voice) (modes : list pystr) :
  let v := set_voice_modes (VoiceEngine.__init__ installed) modes in
  VoiceEngine.current_voice_mode v
  = default (py "Male") (last (filter (fun mode => mode ∈ known_modes) modes))
  /\ (VoiceEngine.current_voice_mode v ∈ known_modes)
  /\ snd (VoiceEngine._configure_tts_voice v) <> Some KeyError.
Proof.
  intros v.
  assert (E : VoiceEngine.current_voice_mode v
              = default (py "Male") (last (filter (fun mode => mode ∈ known_modes) modes))).
  { subst v. induction modes as [|mode modes IH] using rev_ind; [done|].
    unfold set_voice_modes in *. rewrite foldl_app. cbn [foldl].
    rewrite set_voice_mode_current, filter_app.
    case_bool_decide as Hm.
    - rewrite filter_cons_True by done. rewrite filter_nil. by rewrite last_snoc.
    - rewrite filter_cons_False by done. rewrite filter_nil, app_nil_r. exact IH. }
  assert (K : VoiceEngine.current_voice_mode v ∈ known_modes).
  { rewrite E. destruct (last _) as [m|] eqn:L; simpl.
    - apply last_Some_elem_of in L. by apply list_elem_of_filter in L as [? _].
    - apply VOICE_MODES_known. by eexists. }
  split; [exact E|]. split; [exact K|].
  apply VOICE_MODES_known in K as [st Hst].
  unfold VoiceEngine._configure_tts_voice. rewrite Hst.
  by destruct (if _ && _ then _ else _).
Qed.

(** X7. On a machine without any installed voice, selecting a known mode
    raises IndexError: the mode has been changed by then, and the voice,
    rate and volume of the synthesiser have not. *)
Theorem set_voice_mode_without_voices (v : VoiceEngine.t) (mode : pystr) :
  tts_voices (VoiceEngine.tts_engine v) = [] ->
  mode ∈ known_modes ->
  exists v',
    VoiceEngine.set_voice_mode v mode = (v', Some IndexError)
    /\ VoiceEngine.current_voice_mode v' = mode
    /\ VoiceEngine.tts_engine v' = VoiceEngine.tts_engine v
    /\ VoiceEngine.is_listening v' = VoiceEngine.is_listening v
    /\ VoiceEngine.is_speaking v' = VoiceEngine.is_speaking v.
Proof.
  intros Hv Hm. apply VOICE_MODES_known in Hm as [st Hst].
  unfold VoiceEngine.set_voice_mode, VoiceEngine._configure_tts_voice.
  rewrite Hst. simpl. rewrite Hst, Hv. simpl.
  rewrite andb_false_r. by eexists.
Qed.

Lemma set_voice_mode_without_voices_witness :
  tts_voices (VoiceEngine.tts_engine (VoiceEngine.__init__ [])) = []
  /\ (py "Alien" ∈ known_modes)
  /\ exists v',
       VoiceEngine.set_voice_mode (VoiceEngine.__init__ []) (py "Alien")
       = (v', Some IndexError)
       /\ VoiceEngine.current_voice_mode v' = py "Alien"
       /\ VoiceEngine.tts_engine v' = VoiceEngine.tts_engine (VoiceEngine.__init__ []).
Proof.
  assert (Hm : py "Alien" ∈ known_modes).
  { apply VOICE_MODES_known. by eexists. }
  split; [reflexivity|]. split; [exact Hm|].
  destruct (set_voice_mode_without_voices (VoiceEngine.__init__ []) (py "Alien")
              eq_refl Hm) as (v' & H1 & H2 & H3 & _).
  exists v'. by repeat split.
Defined.

(** X8. With at least one voice installed, selecting a known mode never
    raises, sets the rate of that mode and the volume 0.9, and leaves a
    state that does not depend on what was selected before: the last
    selection wins, and selecting a mode twice is selecting it once. *)
Theorem set_voice_mode_last_selection_wins
  (v : VoiceEngine.t) (previous mode : pystr) :
  tts_voices (VoiceEngine.tts_engine v) <> [] ->
  mode ∈ known_modes ->
  let v' := fst (VoiceEngine.set_voice_mode v mode) in
  snd (VoiceEngine.set_voice_mode v mode) = None
  /\ tts_rate (VoiceEngine.tts_engine v') = rate <$> VOICE_MODES !! mode
  /\ tts_volume (VoiceEngine.tts_engine v') = Some (9 # 10)%Q
  /\ VoiceEngine.set_voice_mode
       (fst (VoiceEngine.set_voice_mode v previous)) mode
     = VoiceEngine.set_voice_mode v mode
  /\ VoiceEngine.set_voice_mode v' mode = VoiceEngine.set_voice_mode v mode.
Proof.
  intros Hv Hm v'. apply VOICE_MODES_known in Hm as [st Hst].
  destruct (tts_voices (VoiceEngine.tts_engine v)) as [|v0 vs] eqn:Hvs; [done|].
  assert (G : forall w : VoiceEngine.t,
    tts_voices (VoiceEngine.tts_engine w) = v0 :: vs ->
    VoiceEngine.is_listening w = VoiceEngine.is_listening v ->
    VoiceEngine.is_speaking w = VoiceEngine.is_speaking v ->
    VoiceEngine.set_voice_mode w mode
    = ({| VoiceEngine.tts_engine :=
            {| tts_voices := v0 :: vs;
               tts_voice :=
                 Some (voice_id
                         (match vs with
                          | v1 :: _ => if bool_decide (mode = py "Female") then v1 else v0
                          | [] => v0
                          end));
               tts_rate := Some (rate st);
               tts_volume := Some (9 # 10)%Q |};
          VoiceEngine.current_voice_mode := mode;
          VoiceEngine.is_listening := VoiceEngine.is_listening v;
          VoiceEngine.is_speaking := VoiceEngine.is_speaking v |}, None)).
  { intros w Hw Hl Hs. unfold VoiceEngine.set_voice_mode. rewrite Hst.
    erewrite configure_with_voices; [|exact Hst|exact Hw]. simpl.
    by rewrite Hl, Hs. }
  pose proof (G v Hvs eq_refl eq_refl) as Gv.
  destruct (set_voice_mode_keeps_flags v previous) as (P1 & P2 & P3).
  destruct (set_voice_mode_keeps_flags v mode) as (Q1 & Q2 & Q3).
  rewrite Hvs in P3, Q3.
  subst v'. rewrite (G _ P3 P1 P2), (G _ Q3 Q1 Q2), Gv, Hst. by repeat split.
Qed.

Lemma set_voice_mode_last_selection_wins_witness :
  tts_voices (VoiceEngine.tts_engine (VoiceEngine.__init__ two_voices)) <> []
  /\ (py "Female" ∈ known_modes)
  /\ VoiceEngine.set_voice_mode
       (fst (VoiceEngine.set_voice_mode (VoiceEngine.__init__ two_voices) (py "Alien")))
       (py "Female")
     = VoiceEngine.set_voice_mode (VoiceEngine.__init__ two_voices) (py "Female")
  /\ tts_rate (VoiceEngine.tts_engine
       (fst (VoiceEngine.set_voice_mode (VoiceEngine.__init__ two_voices) (py "Female"))))
     = Some 180%Z.
Proof.
  assert (Hv : tts_voices (VoiceEngine.tts_engine (VoiceEngine.__init__ two_voices)) <> [])
    by discriminate.
  assert (Hm : py "Female" ∈ known_modes).
  { apply VOICE_MODES_known. by eexists. }
  split; [exact Hv|]. split; [exact Hm|].
  destruct (set_voice_mode_last_selection_wins (VoiceEngine.__init__ two_voices)
              (py "Alien") (py "Female") Hv Hm) as (_ & Hr & _ & Hw & _).
  split; [exact Hw|exact Hr].
Defined.

(** ** More on the window *)

Section Window.

Import VoiceAssistantApp.

Lemma on_ai_response_frame (response error : option pystr) (s : t) :
  let s' := on_ai_response response error s in
  ai_assistant s' = ai_assistant s
  /\ threads s' = threads s
  /\ cycle s' = cycle s
  /\ VoiceEngine.is_listening (voice_engine s')
     = VoiceEngine.is_listening (voice_engine s)
  /\ (VoiceEngine.is_speaking (voice_engine s) = false ->
      VoiceEngine.is_speaking (voice_engine s') = false).
Proof.
  unfold on_ai_response.
  destruct error as [[|c e]|], response as [[|d r]|]; try by repeat split.
  all: match goal with |- context [speak ?t ?cb ?x] =>
         destruct (speak_frame t cb x) as (Ha & _ & _ & _ & _ & Ht & Hc & Hs & Hl) end.
  all: simpl in *; by rewrite Ha, Ht, Hc, Hs, Hl.
Qed.

Lemma on_speech_recognized_frame (text error : option pystr) (s : t) :
  let s' := on_speech_recognized text error s in
  voice_engine s' = voice_engine s
  /\ cycle s' = cycle s
  /\ count_listen (threads s') = count_listen (threads s).
Proof.
  unfold on_speech_recognized.
  destruct error as [[|c e]|], text as [[|d r]|]; simpl; try done.
  all: repeat split; unfold count_listen; rewrite filter_app, length_app;
    simpl; lia.
Qed.

Lemma count_listen_cons (w : worker) (ws : list worker) :
  count_listen (w :: ws)
  = (if is_listen_thread w then 1 else 0) + count_listen ws.
Proof.
  unfold count_listen. rewrite filter_cons.
  destruct (is_listen_thread w); by case_decide.
Qed.

Lemma count_listen_app (ws1 ws2 : list worker) :
  count_listen (ws1 ++ ws2) = count_listen ws1 + count_listen ws2.
Proof. unfold count_listen. by rewrite filter_app, length_app. Qed.

Lemma count_listen_delete (ws : list worker) (i : nat) (w : worker) :
  ws !! i = Some w ->
  count_listen ws
  = (if is_listen_thread w then 1 else 0) + count_listen (delete i ws).
Proof.
  revert i; induction ws as [|x ws IH]; intros [|i] H; simpl in *; try done.
  - injection H as ->. apply count_listen_cons.
  - rewrite !count_listen_cons, (IH i H). lia.
Qed.

Lemma step_listening_invariant (s s' : t) (ev : event) :
  listening_invariant s -> step s ev = Some s' -> listening_invariant s'.
Proof.
  intros [Hs Hc] Hstep.
  destruct ev as [| mode | | | i r | i r | i r]; simpl in Hstep.
  - injection Hstep as <-. unfold on_circle_clicked. rewrite Hs, orb_false_r.
    destruct (VoiceEngine.is_listening (voice_engine s)) eqn:El.
    { split; [exact Hs|]. by rewrite El. }
    split; [exact Hs|]. simpl.
    rewrite count_listen_app, Hc. reflexivity.
  - unfold on_voice_mode_changed in Hstep. simpl in Hstep.
    destruct (set_voice_mode_keeps_flags (voice_engine s) mode) as (Kl & Ks & _).
    destruct (VoiceEngine.set_voice_mode _ _) as [w [e|]]; [done|].
    injection Hstep as <-. simpl in Kl, Ks. rewrite <- Kl in Hc.
    split; [exact (eq_trans Ks Hs)|exact Hc].
  - unfold clear_conversation in Hstep. simpl in Hstep.
    destruct (AIAssistant.clear_conversation _); [|done].
    injection Hstep as <-. by split.
  - injection Hstep as <-. unfold test_tts.
    match goal with |- context [speak ?t ?cb ?x] =>
      destruct (speak_frame t cb x) as (_ & _ & _ & _ & _ & Ht & _ & Hsp & Hl) end.
    rewrite <- Ht, <- Hl in Hc. split; [exact Hsp|exact Hc].
  - destruct (threads s !! i) as [[c|c|c t0 cb]|] eqn:E; try done.
    injection Hstep as <-.
    pose proof (count_listen_delete _ _ _ E) as Hd. simpl in Hd.
    assert (K : forall text error,
      listening_invariant
        (with_voice_engine
           (VoiceEngine.set_is_listening false
              (voice_engine (on_speech_recognized text error
                               (with_threads (delete i (threads s)) s))))
           (on_speech_recognized text error (with_threads (delete i (threads s)) s)))).
    { intros text error.
      destruct (on_speech_recognized_frame text error
                  (with_threads (delete i (threads s)) s)) as (Hv & _ & Hn).
      split; simpl; [by rewrite Hv|]. rewrite Hn. simpl.
      destruct (VoiceEngine.is_listening (voice_engine s)); lia. }
    unfold listen_thread_returns. destruct r; try apply K.
    split; simpl; [exact Hs|].
    destruct (VoiceEngine.is_listening (voice_engine s)); lia.
  - destruct (threads s !! i) as [[c|c|c t0 cb]|] eqn:E; try done.
    injection Hstep as <-.
    pose proof (count_listen_delete _ _ _ E) as Hd. simpl in Hd.
    unfold process_thread_returns.
    destruct (AIAssistant.process_thread_result _ r) as [a [response error]].
    cbn [fst snd].
    match goal with |- context [on_ai_response ?x ?y ?z] =>
      destruct (on_ai_response_frame x y z) as (_ & Ht & _ & Hl & Hsp) end.
    split; simpl; [by apply Hsp|]. rewrite Ht, Hl. simpl. lia.
  - destruct (threads s !! i) as [[c|c|c t0 cb]|] eqn:E; try done.
    injection Hstep as <-.
    pose proof (count_listen_delete _ _ _ E) as Hd. simpl in Hd.
    unfold speak_thread_returns. split; [done|].
    destruct r, cb; simpl; lia.
Qed.

Lemma run_listening_invariant (evs : list event) :
  forall s s', listening_invariant s -> run s evs = Some s' -> listening_invariant s'.
Proof.
  induction evs as [|ev evs IH]; intros s s' I Hrun; simpl in Hrun.
  - by injection Hrun as <-.
  - destruct (step s ev) as [s1|] eqn:E; [|done].
    eapply IH; [|exact Hrun]. by eapply step_listening_invariant.
Qed.

Lemma init_listening_invariant (installed : list Voice) :
  listening_invariant (__init__ installed).
Proof. by split. Qed.

End Window.



(** X10. In every state the window can reach, at most one worker is
    listening to the microphone, and [is_listening] is up exactly when there
    is one; while it is up, a click on the circle changes nothing. *)
Theorem one_listener_at_most
  (installed : list Voice) (evs : list event) (s : VoiceAssistantApp.t) :
  VoiceAssistantApp.run (VoiceAssistantApp.__init__ installed) evs = Some s ->
  count_listen (VoiceAssistantApp.threads s)
  = (if VoiceEngine.is_listening (VoiceAssistantApp.voice_engine s) then 1 else 0)
  /\ count_listen (VoiceAssistantApp.threads s) <= 1
  /\ (0 < count_listen (VoiceAssistantApp.threads s) ->
      VoiceAssistantApp.step s circle_clicked = Some s).
Proof.
  intros Hrun.
  destruct (run_listening_invariant evs _ _ (init_listening_invariant installed) Hrun)
    as [_ Hc].
  split; [exact Hc|]. rewrite Hc.
  destruct (VoiceEngine.is_listening (VoiceAssistantApp.voice_engine s)) eqn:El.
  - split; [lia|]. intros _. simpl. f_equal.
    apply click_ignored_while_listening_or_speaking. by left.
  - split; [lia|]. lia.
Qed.

Lemma one_listener_at_most_witness :
  exists s,
    VoiceAssistantApp.run app0 second_cycle_begun = Some s
    /\ count_listen (VoiceAssistantApp.threads s) = 1
    /\ 0 < count_listen (VoiceAssistantApp.threads s)
    /\ VoiceAssistantApp.step s circle_clicked = Some s.
Proof.
  eexists. split; [vm_compute; reflexivity|].
  match goal with |- count_listen (VoiceAssistantApp.threads ?s) = _ /\ _ =>
    destruct (one_listener_at_most two_voices second_cycle_begun s)
      as (_ & _ & H3) end.
  - vm_compute; reflexivity.
  - assert (H0 : 0 < 1) by lia.
    split; [reflexivity|]. split; [exact H0|]. exact (H3 H0).
Defined.

(** *** The returns of the recogniser and of the completion service *)

(** X11. When the recogniser times out, does not understand, or cannot be
    reached, the window shows "Error: " with the message of that failure,
    "Ready" and the idle circle; the listener is gone, [is_listening] is
    down, and neither the assistant (history and flag) nor the conversation
    display has changed. *)
Theorem transcription_failure_shows_error
  (s : VoiceAssistantApp.t) (i c : nat) (e : pystr) :
  VoiceAssistantApp.threads s !! i = Some (listen_thread c) ->
  let reported (r : listen_result) (message : pystr) :=
    exists s',
      VoiceAssistantApp.step s (listen_returns i r) = Some s'
      /\ VoiceAssistantApp.status_label s' = py "Error: " ++ message
      /\ VoiceAssistantApp.status_bar s' = py "Ready"
      /\ VoiceAssistantApp.animated_circle s' = AnimatedCircle.set_state (py "idle")
      /\ VoiceAssistantApp.ai_assistant s' = VoiceAssistantApp.ai_assistant s
      /\ VoiceAssistantApp.conversation_display s'
         = VoiceAssistantApp.conversation_display s
      /\ VoiceAssistantApp.threads s' = delete i (VoiceAssistantApp.threads s)
      /\ VoiceEngine.is_listening (VoiceAssistantApp.voice_engine s') = false in
  reported WaitTimeoutError (py "Listening timeout")
  /\ reported UnknownValueError (py "Could not understand audio")
  /\ reported (RequestError e) (py "Could not request results; " ++ e).
Proof.
  intros Hw reported. subst reported. cbv beta.
  repeat split; eexists; (split; [simpl; rewrite Hw; reflexivity|]);
    by repeat split.
Qed.

Lemma transcription_failure_shows_error_witness :
  exists s s',
    VoiceAssistantApp.run app0 [circle_clicked] = Some s
    /\ VoiceAssistantApp.threads s !! 0 = Some (listen_thread 1)
    /\ VoiceAssistantApp.step s (listen_returns 0 WaitTimeoutError) = Some s'
    /\ VoiceAssistantApp.status_label s' = py "Error: " ++ py "Listening timeout"
    /\ VoiceAssistantApp.animated_circle s' = AnimatedCircle.set_state (py "idle").
Proof.
  eexists.
  match goal with |- exists s', VoiceAssistantApp.run ?a ?evs = Some ?s /\ _ =>
    assert (Hr : VoiceAssistantApp.run a evs = Some s) by (vm_compute; reflexivity) end.
  match type of Hr with _ = Some ?s =>
    destruct (transcription_failure_shows_error s 0 1 [] eq_refl)
      as ((s' & Hs & Hl & _ & Hc & _) & _) end.
  exists s'. split; [exact Hr|]. split; [reflexivity|].
  split; [exact Hs|]. split; [exact Hl|exact Hc].
Defined.

(** X12. When the recogniser fails with an exception that is none of the
    three that are caught, or returns an empty text, nothing is reported:
    the listener is gone and [is_listening] is down, but the window shows
    what it showed while listening, and nothing else has changed. *)
Theorem unreported_listen_outcome
  (s : VoiceAssistantApp.t) (i c : nat) (r : listen_result) :
  VoiceAssistantApp.threads s !! i = Some (listen_thread c) ->
  r = OtherListenError \/ r = Heard [] ->
  exists s',
    VoiceAssistantApp.step s (listen_returns i r) = Some s'
    /\ VoiceAssistantApp.status_label s' = VoiceAssistantApp.status_label s
    /\ VoiceAssistantApp.status_bar s' = VoiceAssistantApp.status_bar s
    /\ VoiceAssistantApp.animated_circle s' = VoiceAssistantApp.animated_circle s
    /\ VoiceAssistantApp.ai_assistant s' = VoiceAssistantApp.ai_assistant s
    /\ VoiceAssistantApp.conversation_display s'
       = VoiceAssistantApp.conversation_display s
    /\ VoiceAssistantApp.threads s' = delete i (VoiceAssistantApp.threads s)
    /\ VoiceEngine.is_listening (VoiceAssistantApp.voice_engine s') = false.
Proof.
  intros Hw [-> | ->]; eexists; (split; [simpl; rewrite Hw; reflexivity|]);
    by repeat split.
Qed.

Lemma unreported_listen_outcome_witness :
  exists s s',
    VoiceAssistantApp.run app0 [circle_clicked] = Some s
    /\ VoiceAssistantApp.threads s !! 0 = Some (listen_thread 1)
    /\ VoiceAssistantApp.step s (listen_returns 0 OtherListenError) = Some s'
    /\ VoiceAssistantApp.status_label s' = py "Listening... Speak now!"
    /\ VoiceAssistantApp.animated_circle s' = AnimatedCircle.set_state (py "listening")
    /\ VoiceAssistantApp.threads s' = [].
Proof.
  eexists.
  match goal with |- exists s', VoiceAssistantApp.run ?a ?evs = Some ?s /\ _ =>
    assert (Hr : VoiceAssistantApp.run a evs = Some s) by (vm_compute; reflexivity) end.
  match type of Hr with _ = Some ?s =>
    destruct (unreported_listen_outcome s 0 1 OtherListenError eq_refl (or_introl eq_refl))
      as (s' & Hs & Hl & _ & Hc & _ & _ & Ht & _) end.
  exists s'. split; [exact Hr|]. split; [reflexivity|].
  split; [exact Hs|]. split; [exact Hl|]. split; [exact Hc|exact Ht].
Defined.

Lemma lstrip_blank (s : pystr) :
  Forall (fun c => isspace c = true) s -> lstrip s = [].
Proof. induction 1 as [|c s Hc _ IH]; simpl; [done|]. by rewrite Hc. Qed.

Lemma strip_blank (s : pystr) :
  Forall (fun c => isspace c = true) s -> strip s = [].
Proof. intros H. unfold strip. by rewrite (lstrip_blank s H). Qed.

(** X13. A reply that is empty or all whitespace is recorded and not
    shown: the history gets an assistant message with an empty content (and
    is trimmed), while nothing is added to the conversation display, no
    speech is started, and the circle and the status texts stay as they
    were during processing. *)
Theorem blank_reply_is_recorded_not_shown
  (s : VoiceAssistantApp.t) (i c : nat) (content : pystr) :
  VoiceAssistantApp.threads s !! i = Some (process_thread c) ->
  Forall (fun ch => isspace ch = true) content ->
  exists s',
    VoiceAssistantApp.step s (completion_returns i (Reply content)) = Some s'
    /\ history s'
       = AIAssistant.trim (history s ++ [ {| role := assistant; content := [] |} ])
    /\ AIAssistant.is_processing (VoiceAssistantApp.ai_assistant s') = false
    /\ VoiceAssistantApp.conversation_display s'
       = VoiceAssistantApp.conversation_display s
    /\ VoiceAssistantApp.animated_circle s' = VoiceAssistantApp.animated_circle s
    /\ VoiceAssistantApp.status_label s' = VoiceAssistantApp.status_label s
    /\ VoiceAssistantApp.status_bar s' = VoiceAssistantApp.status_bar s
    /\ VoiceAssistantApp.voice_engine s' = VoiceAssistantApp.voice_engine s
    /\ VoiceAssistantApp.threads s' = delete i (VoiceAssistantApp.threads s).
Proof.
  intros Hw Hb. eexists. split; [simpl; rewrite Hw; reflexivity|].
  unfold VoiceAssistantApp.process_thread_returns.
  cbn [AIAssistant.process_thread_result fst snd].
  rewrite (strip_blank content Hb). by repeat split.
Qed.

Lemma blank_reply_is_recorded_not_shown_witness :
  exists s s',
    VoiceAssistantApp.run app0 hello_heard = Some s
    /\ VoiceAssistantApp.threads s !! 0 = Some (process_thread 1)
    /\ Forall (fun ch => isspace ch = true) (py "  ")
    /\ VoiceAssistantApp.step s (completion_returns 0 (Reply (py "  "))) = Some s'
    /\ history s'
       = AIAssistant.trim (history s ++ [ {| role := assistant; content := [] |} ])
    /\ VoiceAssistantApp.animated_circle s' = AnimatedCircle.set_state (py "processing").
Proof.
  eexists.
  match goal with |- exists s', VoiceAssistantApp.run ?a ?evs = Some ?s /\ _ =>
    assert (Hr : VoiceAssistantApp.run a evs = Some s) by (vm_compute; reflexivity) end.
  assert (Hb : Forall (fun ch => isspace ch = true) (py "  "))
    by (repeat constructor).
  match type of Hr with _ = Some ?s =>
    destruct (blank_reply_is_recorded_not_shown s 0 1 (py "  ") eq_refl Hb)
      as (s' & Hs & Hh & _ & _ & Hc & _) end.
  exists s'. split; [exact Hr|]. split; [reflexivity|]. split; [exact Hb|].
  split; [exact Hs|]. split; [exact Hh|]. rewrite Hc. reflexivity.
Defined.

(** *** The conversation display *)

(** X14. The conversation display is never trimmed: the Clear button
    empties it, and every other event leaves its lines in place and adds at
    most one, the text heard (under "You") or the reply, stripped and not
    empty (under "ARIA"). *)
Theorem display_only_grows (s s' : VoiceAssistantApp.t) (ev : event) :
  VoiceAssistantApp.step s ev = Some s' ->
  VoiceAssistantApp.conversation_display s'
  = match ev with
    | clear_button_clicked => []
    | _ => VoiceAssistantApp.conversation_display s ++ display_added ev
    end.
Proof.
  intros Hstep.
  destruct ev as [| mode | | | i r | i r | i r]; simpl in Hstep.
  - injection Hstep as <-. unfold VoiceAssistantApp.on_circle_clicked.
    destruct (_ || _); simpl; by rewrite app_nil_r.
  - unfold VoiceAssistantApp.on_voice_mode_changed in Hstep.
    destruct (VoiceEngine.set_voice_mode _ _) as [w [e|]]; [done|].
    injection Hstep as <-. simpl. by rewrite app_nil_r.
  - unfold VoiceAssistantApp.clear_conversation in Hstep. simpl in Hstep.
    destruct (AIAssistant.clear_conversation _); [|done].
    by injection Hstep as <-.
  - injection Hstep as <-. unfold VoiceAssistantApp.test_tts.
    match goal with |- context [VoiceAssistantApp.speak ?t ?cb ?x] =>
      destruct (speak_frame t cb x) as (_ & _ & _ & _ & Hd & _) end.
    cbn [display_added]. rewrite app_nil_r, <- Hd. reflexivity.
  - destruct (VoiceAssistantApp.threads s !! i) as [[c|c|c t0 cb]|]; try done.
    injection Hstep as <-.
    destruct r as [[|ch text]| | | e |]; simpl; by rewrite ?app_nil_r.
  - destruct (VoiceAssistantApp.threads s !! i) as [[c|c|c t0 cb]|]; try done.
    injection Hstep as <-. unfold VoiceAssistantApp.process_thread_returns.
    destruct r as [content|e]; cbn [AIAssistant.process_thread_result fst snd display_added].
    + unfold VoiceAssistantApp.on_ai_response.
      destruct (strip content) as [|ch reply]; [simpl; by rewrite app_nil_r|].
      match goal with |- context [VoiceAssistantApp.speak ?t ?cb ?x] =>
        destruct (speak_frame t cb x) as (_ & _ & _ & _ & Hd & _) end.
      change (VoiceAssistantApp.conversation_display
                (VoiceAssistantApp.with_ai_assistant ?a ?x))
        with (VoiceAssistantApp.conversation_display x).
      rewrite Hd. reflexivity.
    + rewrite app_nil_r. reflexivity.
  - destruct (VoiceAssistantApp.threads s !! i) as [[c|c|c t0 cb]|]; try done.
    injection Hstep as <-. simpl. rewrite app_nil_r. by destruct r, cb.
Qed.

Lemma display_only_grows_witness :
  exists s s',
    VoiceAssistantApp.run app0 [circle_clicked] = Some s
    /\ VoiceAssistantApp.step s (listen_returns 0 (Heard (py "hello"))) = Some s'
    /\ VoiceAssistantApp.conversation_display s'
       = VoiceAssistantApp.conversation_display s ++ [(py "You", py "hello")].
Proof.
  eexists. eexists. split; [vm_compute; reflexivity|].
  match goal with |- VoiceAssistantApp.step ?s ?ev = Some ?s' /\ _ =>
    assert (Hs : VoiceAssistantApp.step s ev = Some s') by (vm_compute; reflexivity) end.
  split; [exact Hs|]. exact (display_only_grows _ _ _ Hs).
Defined.

(** *** A whole exchange *)

Section FreshExchange.

Import VoiceAssistantApp.

Lemma reply_returns_frame (content : pystr) (s : t) :
  strip content <> [] ->
  let s' := process_thread_returns (Reply content) s in
  conversation_display s' = conversation_display s ++ [(py "ARIA", strip content)]
  /\ AIAssistant.is_processing (ai_assistant s') = false
  /\ VoiceEngine.is_listening (voice_engine s')
     = VoiceEngine.is_listening (voice_engine s)
  /\ (VoiceEngine.is_speaking (voice_engine s) = false ->
      VoiceEngine.is_speaking (voice_engine s') = false).
Proof.
  intros Hne. unfold process_thread_returns.
  cbn [AIAssistant.process_thread_result fst snd]. unfold on_ai_response.
  destruct (strip content) as [|c r]; [done|].
  match goal with |- context [speak ?t ?cb ?x] =>
    destruct (speak_frame t cb x) as (_ & _ & _ & _ & Hd & _ & _ & Hsp & Hl) end.
  split; [exact Hd|]. split; [reflexivity|]. split; [exact Hl|].
  intros _. exact Hsp.
Qed.

(** The window after a click and a text heard, on a fresh window. *)
Lemma heard_on_fresh_window (installed : list Voice) (ch : N) (text : pystr) :
  exists s,
    run (__init__ installed) [circle_clicked; listen_returns 0 (Heard (ch :: text))]
    = Some s
    /\ history s
       = [ {| role := system; content := SYSTEM_PROMPT |};
           {| role := user; content := ch :: text |} ]
    /\ conversation_display s = [ (py "You", ch :: text) ]
    /\ threads s = [process_thread 1]
    /\ VoiceEngine.is_listening (voice_engine s) = false
    /\ VoiceEngine.is_speaking (voice_engine s) = false
    /\ animated_circle s = AnimatedCircle.set_state (py "processing").
Proof. eexists. split; [reflexivity|]. by repeat split. Qed.

Lemma run_app (evs1 evs2 : list event) (s : t) :
  run s (evs1 ++ evs2)
  = match run s evs1 with Some s' => run s' evs2 | None => None end.
Proof.
  revert s; induction evs1 as [|ev evs1 IH]; intros s; simpl; [done|].
  destruct (step s ev); [apply IH|done].
Qed.

End FreshExchange.

(** X15. On a fresh window, whatever voices are installed: a click, a text
    heard that is not empty, a reply that is not blank. The history is the
    system message, the text and the stripped reply; the display has the two
    lines; no worker is left and every busy flag is down; and the window is
    left showing "Speaking response..." over the circle in its processing
    state. *)
Theorem exchange_on_fresh_window (installed : list Voice) (text reply : pystr) :
  text <> [] ->
  strip reply <> [] ->
  exists s,
    VoiceAssistantApp.run (VoiceAssistantApp.__init__ installed)
      [ circle_clicked; listen_returns 0 (Heard text);
        completion_returns 0 (Reply reply) ] = Some s
    /\ history s
       = [ {| role := system; content := SYSTEM_PROMPT |};
           {| role := user; content := text |};
           {| role := assistant; content := strip reply |} ]
    /\ VoiceAssistantApp.conversation_display s
       = [ (py "You", text); (py "ARIA", strip reply) ]
    /\ VoiceAssistantApp.threads s = []
    /\ busy_state s = Idle
    /\ VoiceAssistantApp.status_label s = py "Speaking response..."
    /\ VoiceAssistantApp.status_bar s = py "Playing AI response..."
    /\ VoiceAssistantApp.animated_circle s = AnimatedCircle.set_state (py "processing").
Proof.
  intros Ht Hr. destruct text as [|ch text]; [done|].
  destruct (heard_on_fresh_window installed ch text)
    as (s2 & Hrun & Hh & Hd & Hw & Hl & Hs & Hc).
  exists (VoiceAssistantApp.process_thread_returns (Reply reply)
            (VoiceAssistantApp.with_threads [] s2)).
  split.
  { change [circle_clicked; listen_returns 0 (Heard (ch :: text));
            completion_returns 0 (Reply reply)]
      with ([circle_clicked; listen_returns 0 (Heard (ch :: text))]
            ++ [completion_returns 0 (Reply reply)]).
    rewrite run_app, Hrun. simpl. by rewrite Hw. }
  destruct (process_thread_returns_reply_shown reply
              (VoiceAssistantApp.with_threads [] s2) Hr) as (Gl & Gb & Gc & Gt).
  destruct (reply_returns_frame reply
              (VoiceAssistantApp.with_threads [] s2) Hr) as (Gd & Gp & Gli & Gsp).
  split.
  { rewrite process_thread_returns_reply.
    change (history (VoiceAssistantApp.with_threads [] s2)) with (history s2).
    rewrite Hh. apply trim_within. simpl. lia. }
  split; [rewrite Gd; simpl; by rewrite Hd|].
  split; [exact Gt|].
  split.
  { unfold busy_state. rewrite Gli, Gp, (Gsp Hs). simpl. by rewrite Hl. }
  split; [exact Gl|]. split; [exact Gb|].
  rewrite Gc. exact Hc.
Qed.

Lemma exchange_on_fresh_window_witness :
  py "hello" <> [] /\ strip (py " hi there ") <> []
  /\ exists s,
       VoiceAssistantApp.run app0
         [ circle_clicked; listen_returns 0 (Heard (py "hello"));
           completion_returns 0 (Reply (py " hi there ")) ] = Some s
       /\ history s
          = [ {| role := system; content := SYSTEM_PROMPT |};
              {| role := user; content := py "hello" |};
              {| role := assistant; content := strip (py " hi there ") |} ].
Proof.
  assert (H1 : py "hello" <> []) by discriminate.
  assert (H2 : strip (py " hi there ") <> []) by (vm_compute; discriminate).
  split; [exact H1|]. split; [exact H2|].
  destruct (exchange_on_fresh_window two_voices (py "hello") (py " hi there ") H1 H2)
    as (s & Hr & Hh & _).
  exists s. split; [exact Hr|exact Hh].
Defined.

(** X16. Clearing while a completion call is outstanding does not cancel
    it: when the reply comes, it is appended to the cleared history, which
    then holds the first entry and the answer, without the question that
    was asked. *)
Theorem clear_while_processing_keeps_late_reply
  (s : VoiceAssistantApp.t) (i c : nat) (reply : pystr)
  (m0 : Message) (rest : list Message) :
  VoiceAssistantApp.threads s !! i = Some (process_thread c) ->
  history s = m0 :: rest ->
  exists s1 s2,
    VoiceAssistantApp.step s clear_button_clicked = Some s1
    /\ history s1 = [m0]
    /\ VoiceAssistantApp.threads s1 = VoiceAssistantApp.threads s
    /\ VoiceAssistantApp.step s1 (completion_returns i (Reply reply)) = Some s2
    /\ history s2 = [ m0; {| role := assistant; content := strip reply |} ].
Proof.
  intros Hw Hh. unfold history in Hh.
  eexists. eexists. split.
  { simpl. unfold VoiceAssistantApp.clear_conversation, AIAssistant.clear_conversation.
    simpl. rewrite Hh. reflexivity. }
  split; [reflexivity|]. split; [reflexivity|]. split.
  { simpl. rewrite Hw. reflexivity. }
  rewrite process_thread_returns_reply. reflexivity.
Qed.

Lemma clear_while_processing_keeps_late_reply_witness :
  exists s s1 s2,
    VoiceAssistantApp.run app0 hello_heard = Some s
    /\ VoiceAssistantApp.threads s !! 0 = Some (process_thread 1)
    /\ VoiceAssistantApp.step s clear_button_clicked = Some s1
    /\ VoiceAssistantApp.step s1 (completion_returns 0 (Reply (py "hi there"))) = Some s2
    /\ history s2
       = [ {| role := system; content := SYSTEM_PROMPT |};
           {| role := assistant; content := strip (py "hi there") |} ].
Proof.
  eexists.
  match goal with |- exists s1 s2, VoiceAssistantApp.run ?a ?evs = Some ?s /\ _ =>
    assert (Hr : VoiceAssistantApp.run a evs = Some s) by (vm_compute; reflexivity) end.
  match type of Hr with _ = Some ?s =>
    destruct (clear_while_processing_keeps_late_reply s 0 1 (py "hi there")
                {| role := system; content := SYSTEM_PROMPT |}
                [ {| role := user; content := py "hello" |} ] eq_refl eq_refl)
      as (s1 & s2 & H1 & _ & _ & H2 & H3) end.
  exists s1, s2. split; [exact Hr|]. split; [reflexivity|].
  split; [exact H1|]. split; [exact H2|exact H3].
Defined.

(** ** The circle *)

(** X17. [set_state] knows two names. For every name, the circle is active
    exactly when it is listening or processing, and never both; a name that
    is neither "listening" nor "processing" puts the circle in the state the
    constructor gives it. *)
Theorem set_state_unknown_name_is_idle (state : pystr) :
  let c := AnimatedCircle.set_state state in
  AnimatedCircle.is_active c
  = AnimatedCircle.is_listening c || AnimatedCircle.is_processing c
  /\ AnimatedCircle.is_listening c && AnimatedCircle.is_processing c = false
  /\ (AnimatedCircle.is_listening c = true <-> state = py "listening")
  /\ (AnimatedCircle.is_processing c = true <-> state = py "processing")
  /\ (state <> py "listening" -> state <> py "processing" ->
      c = AnimatedCircle.__init__).
Proof.
  unfold AnimatedCircle.set_state, AnimatedCircle.__init__. simpl.
  split; [reflexivity|]. split.
  - repeat case_bool_decide; try done. by subst.
  - rewrite !bool_decide_eq_true. split; [done|]. split; [done|].
    intros H1 H2. by rewrite !bool_decide_eq_false_2.
Qed.

Lemma set_state_unknown_name_is_idle_witness :
  py "speaking" <> py "listening" /\ py "speaking" <> py "processing"
  /\ AnimatedCircle.set_state (py "speaking") = AnimatedCircle.__init__.
Proof.
  assert (H1 : py "speaking" <> py "listening") by discriminate.
  assert (H2 : py "speaking" <> py "processing") by discriminate.
  split; [exact H1|]. split; [exact H2|].
  exact (proj2 (proj2 (proj2 (proj2
           (set_state_unknown_name_is_idle (py "speaking"))))) H1 H2).
Defined.

(** ** More on the alien transform *)

Lemma split_from_nil (s w : pystr) :
  split_from w s = [] <-> w = [] /\ Forall (fun c => isspace c = true) s.
Proof.
  revert w; induction s as [|c s IH]; intros w; simpl.
  - destruct w; split; try done. by intros [? _].
  - destruct (isspace c) eqn:Hc.
    + destruct w as [|d w].
      * rewrite IH. split; intros [? H]; (split; [done|]).
        -- by constructor.
        -- by inversion H.
      * split; [done|]. by intros [? _].
    + rewrite IH. split.
      * intros [E _]. by destruct w.
      * intros [_ H]. inversion H; congruence.
Qed.

Lemma join_cons_nil (sep x : pystr) (xs : list pystr) :
  join sep (x :: xs) = [] -> x = [].
Proof.
  destruct xs as [|y xs]; [done|].
  change (join sep (x :: y :: xs)) with (x ++ sep ++ join sep (y :: xs)).
  intros J. by apply app_eq_nil in J as [? _].
Qed.

(** X18. The alien transform gives the empty text for a text that is empty
    or all whitespace, and for no other text. *)
Theorem alien_effects_empty_iff_blank (text : pystr) :
  _apply_alien_effects text = [] <-> Forall (fun c => isspace c = true) text.
Proof.
  unfold _apply_alien_effects. rewrite alien_loop_is_map, app_nil_l.
  destruct (split text) as [|w ws] eqn:E.
  - split; [|done]. intros _. apply (split_from_nil text []) in E. by destruct E.
  - split.
    + intros J. exfalso.
      assert (Hw : is_word w).
      { pose proof (split_words text) as H. rewrite E in H. by inversion H. }
      apply alien_word_is_word in Hw as [Hne _].
      rewrite fmap_cons in J. by apply join_cons_nil in J.
    + intros H. assert (split text = []) as E'.
      { apply (split_from_nil text []). by split. }
      congruence.
Qed.

(** ** The reply that is stored *)

Section Strip.

Local Abbreviation blank := (Forall (fun c => isspace c = true)).

Lemma lstrip_spec (s : pystr) :
  exists l, s = l ++ lstrip s /\ blank l
            /\ forall c, head (lstrip s) = Some c -> isspace c = false.
Proof.
  induction s as [|c s (l & E & Hl & Hh)]; simpl.
  - exists []. by repeat split.
  - destruct (isspace c) eqn:Hc.
    + exists (c :: l). split; [by rewrite E at 1|]. split; [by constructor|done].
    + exists []. repeat split; [constructor|]. simpl. by intros ? [= <-].
Qed.

Lemma last_rev {A} (l : list A) : last (rev l) = head l.
Proof. rewrite rev_alt. apply last_reverse. Qed.

Lemma strip_spec (s : pystr) :
  exists l r,
    s = l ++ strip s ++ r /\ blank l /\ blank r
    /\ (forall c, head (strip s) = Some c -> isspace c = false)
    /\ (forall c, last (strip s) = Some c -> isspace c = false).
Proof.
  destruct (lstrip_spec s) as (l & E & Hl & Hh).
  destruct (lstrip_spec (rev (lstrip s))) as (l' & E' & Hl' & Hh').
  assert (T : lstrip s = strip s ++ rev l').
  { unfold strip, rstrip. rewrite <- rev_app_distr, <- E'. by rewrite rev_involutive. }
  exists l, (rev l'). split; [by rewrite <- T|]. split; [exact Hl|].
  split; [by apply Forall_rev|]. split.
  - intros c Hc. apply Hh. rewrite T. by destruct (strip s).
  - intros c Hc. apply Hh'. unfold strip, rstrip in Hc.
    rewrite last_rev in Hc. exact Hc.
Qed.

End Strip.

(** X19. After a call of [get_response] that succeeds, the last entry of
    the history is the assistant message whose content is the reply with the
    whitespace at its two ends removed and nothing else: the reply is that
    content between two runs of whitespace, and the content neither begins
    nor ends with whitespace. *)
Theorem stored_reply_is_stripped (a : AIAssistant.t) (question reply : pystr) :
  exists stored l r,
    last (AIAssistant.conversation_history (successful_exchange a (question, reply)))
    = Some {| role := assistant; content := stored |}
    /\ reply = l ++ stored ++ r
    /\ Forall (fun c => isspace c = true) l
    /\ Forall (fun c => isspace c = true) r
    /\ (forall c, head stored = Some c -> isspace c = false)
    /\ (forall c, last stored = Some c -> isspace c = false).
Proof.
  destruct (strip_spec reply) as (l & r & E & Hl & Hr & Hh & Hla).
  exists (strip reply), l, r. split; [|by repeat split].
  rewrite history_successful_exchange. unfold exchange_messages. cbn [fst snd].
  destruct (trim_app_two (AIAssistant.conversation_history a)
              {| role := user; content := question |}
              {| role := assistant; content := strip reply |}) as [pre ->].
  change (pre ++ [ {| role := user; content := question |};
                   {| role := assistant; content := strip reply |} ])
    with (pre ++ [ {| role := user; content := question |} ]
              ++ [ {| role := assistant; content := strip reply |} ]).
  by rewrite app_assoc, last_snoc.
Qed.

Lemma stored_reply_is_stripped_witness :
  exists stored l r,
    last (AIAssistant.conversation_history
            (successful_exchange AIAssistant.__init__ (py "hello", py " hi there ")))
    = Some {| role := assistant; content := stored |}
    /\ py " hi there " = l ++ stored ++ r
    /\ head stored = Some 104%N
    /\ isspace 104%N = false.
Proof.
  destruct (stored_reply_is_stripped AIAssistant.__init__ (py "hello") (py " hi there "))
    as (stored & l & r & H1 & H2 & _ & _ & H5 & _).
  exists stored, l, r. split; [exact H1|]. split; [exact H2|].
  assert (Hs : head stored = Some 104%N).
  { vm_compute in H1. injection H1 as <-. reflexivity. }
  split; [exact Hs|exact (H5 _ Hs)].
Defined.

(** ** The assistant of the demo *)

Lemma demo_index_after (k : nat) (self : DemoAIAssistant.t) :
  DemoAIAssistant.response_index (after_responses k self)
  = DemoAIAssistant.response_index self + k.
Proof.
  induction k as [|k IH]; simpl; [lia|].
  unfold DemoAIAssistant.delayed_response.
  destruct (lookup_lt_is_Some_2 DemoAIAssistant.responses
              (DemoAIAssistant.response_index (after_responses k self)
               mod length DemoAIAssistant.responses)) as [r ->].
  { apply Nat.mod_upper_bound. discriminate. }
  simpl. fold (after_responses k self). rewrite IH. lia.
Qed.

(** X20. The demo assistant goes round its nine responses: after a clear
    (or on a fresh assistant) the response number [k], counted from 0, is
    entry [k mod 9] of the list, so the subscript never fails, the response
    of nine calls later is the same, and the first response after a clear
    is the greeting. *)
Theorem demo_responses_go_round (self : DemoAIAssistant.t) (k : nat) :
  let fresh := DemoAIAssistant.clear_conversation self in
  let response n := snd (DemoAIAssistant.delayed_response (after_responses n fresh)) in
  DemoAIAssistant.clear_conversation self = DemoAIAssistant.__init__
  /\ is_Some (response k)
  /\ response k = DemoAIAssistant.responses !! (k mod 9)
  /\ response (k + 9) = response k
  /\ response 0 = head DemoAIAssistant.responses.
Proof.
  intros fresh response.
  assert (L : length DemoAIAssistant.responses = 9) by reflexivity.
  assert (B : forall n, is_Some (DemoAIAssistant.responses !! (n mod 9))).
  { intros n. apply lookup_lt_is_Some_2. rewrite L.
    apply Nat.mod_upper_bound. lia. }
  assert (R : forall n, response n = DemoAIAssistant.responses !! (n mod 9)).
  { intros n. subst response fresh. cbv beta.
    unfold DemoAIAssistant.delayed_response.
    rewrite demo_index_after, L.
    cbn [DemoAIAssistant.clear_conversation DemoAIAssistant.response_index].
    rewrite Nat.add_0_l. by destruct (B n) as [r ->]. }
  split; [reflexivity|]. split; [rewrite R; apply B|].
  split; [apply R|]. split; [|by rewrite R].
  rewrite !R. f_equal.
  replace (k + 9) with (k + 1 * 9) by lia. apply Nat.Div0.mod_add.
Qed.

Lemma alien_effects_empty_iff_blank_witness :
  Forall (fun c => isspace c = true) (py "  ")
  /\ _apply_alien_effects (py "  ") = []
  /\ _apply_alien_effects [] = [].
Proof.
  assert (Hb : Forall (fun c => isspace c = true) (py "  ")) by (repeat constructor).
  split; [exact Hb|]. split.
  - exact (proj2 (alien_effects_empty_iff_blank (py "  ")) Hb).
  - exact (proj2 (alien_effects_empty_iff_blank []) (List.Forall_nil _)).
Defined.
